(** * MSS-Agent: the spreadsheet validator and the notification workflow

    A shallow embedding of [src/agents/data_validator.py]
    ([DataValidator.validate_spreadsheet]) and of
    [src/workflows/validation_workflow.py] ([ValidationWorkflow.run] and
    [ValidationWorkflow.run_all_sheets]), followed by the properties of the
    rule engine, of the deadline scheduler and of the orchestrator.

    Conventions of the embedding:
    - a pandas [DataFrame] is a list of column names and a list of rows, a
      row being the list of its cells in column order;
    - a cell is what [df.iterrows()] hands to the row loop: null (NaN), a
      Python [int] (an integer cell of a frame that also has a column that
      is not numeric), a [numpy.int64] (an integer cell of a frame whose
      columns are all integer; it is not an instance of [int] or [float]),
      a float (a Python [float] or a [numpy.float64], which is one), a text
      or a date. A float is given by the decimal numeral [str()] prints
      for it, [i.f]; floats printed with an exponent, [inf] and booleans
      are outside the model. The rank threshold is an integer ([Z]), and
      comparing such a float with it agrees with comparing the numeral;
    - [str.lower] and [str.strip] are modelled on ASCII;
    - the builtin [float(...)] used by the outcome-number check is a
      parameter ([float_ok]), as is the SMTP transport behind the notifier
      ([transport]);
    - exceptions are values of [Result]; the notifier calls of a run are
      recorded, in order, in the log threaded by the monad [Notify];
    - the time stamps and the workflow identifiers of the result dicts are
      left out; [missing_data_details] is not a field of the report record:
      [_check_missing_data], which computes it, is modelled on its own
      ([check_missing_data]), as are [_check_product_frequency],
      [ExcelParser.validate_file_structure], [Config.get] and the file
      table of [utils/database.py]. *)

From Stdlib Require Import String Ascii List ZArith QArith Bool Lia.
From Stdlib Require Import DecimalString Permutation.
Import ListNotations.

Local Open Scope string_scope.
Local Open Scope list_scope.
Local Open Scope Z_scope.

(** ** Python primitives on strings *)

(** [c.lower()] on an ASCII character. *)
Definition lower_ascii (c : ascii) : ascii :=
  let n := nat_of_ascii c in
  if (andb (Nat.leb 65 n) (Nat.leb n 90)) then ascii_of_nat (n + 32) else c.

(** [s.lower()]. *)
Fixpoint lower (s : string) : string :=
  match s with
  | EmptyString => EmptyString
  | String c s' => String (lower_ascii c) (lower s')
  end.

(** [needle in hay] on two strings: [needle] occurs as a substring. *)
Fixpoint contains (needle hay : string) : bool :=
  if String.prefix needle hay then true
  else match hay with
       | EmptyString => false
       | String _ hay' => contains needle hay'
       end.

(** The characters [str.strip] removes (ASCII part of [str.isspace]). *)
Definition is_space (c : ascii) : bool :=
  let n := nat_of_ascii c in
  orb (andb (Nat.leb 9 n) (Nat.leb n 13))
      (orb (andb (Nat.leb 28 n) (Nat.leb n 31)) (Nat.eqb n 32)).

(** [s.strip() == ''] : every character of [s] is white space. *)
Fixpoint strip_is_empty (s : string) : bool :=
  match s with
  | EmptyString => true
  | String c s' => andb (is_space c) (strip_is_empty s')
  end.

(** [sep.join(parts)]. *)
Definition join (sep : string) (parts : list string) : string :=
  String.concat sep parts.

(** [str(n)] for a Python [int]. *)
Definition str_int (n : Z) : string := NilZero.string_of_int (Z.to_int n).

(** [x in xs] for a list of strings. *)
Definition str_in (x : string) (xs : list string) : bool :=
  existsb (String.eqb x) xs.

(** ** Cells, rows and tables *)

Inductive Cell : Type :=
| CNull                 (* NaN / NaT: pd.isnull(value) *)
| CNum (n : Z)          (* a Python int: isinstance(value, (int, float)) *)
| CStr (s : string)     (* isinstance(value, str) *)
| CDate (s : string)    (* a Timestamp, [s] being its str() *)
| CNpInt (n : Z)        (* a numpy.int64: not an int, not a float *)
| CFloat (i : Decimal.signed_int) (f : Decimal.uint).
                        (* a float whose str() is the numeral i.f *)

(** [str(value)] for a float: the integer part, a point, the fraction
    (["7.0"], ["-0.5"]). *)
Definition str_float (i : Decimal.signed_int) (f : Decimal.uint) : string :=
  NilZero.string_of_int i ++ "." ++ NilZero.string_of_uint f.

(** The number the numeral [i.f] denotes. *)
Definition float_value (i : Decimal.signed_int) (f : Decimal.uint) : Q :=
  Z.of_int (Decimal.app_int i f)
  # Z.to_pos (10 ^ Z.of_nat (Decimal.nb_digits f)).

(** [pd.isnull(value)]. *)
Definition isnull (v : Cell) : bool :=
  match v with CNull => true | _ => false end.

(** [str(value)]. *)
Definition str_cell (v : Cell) : string :=
  match v with
  | CNull => "nan"
  | CNum n => str_int n
  | CStr s => s
  | CDate s => s
  | CNpInt n => str_int n
  | CFloat i f => str_float i f
  end.

(** Truth value of a cell in [if frequency_value and ...]: NaN is true,
    a number is true unless 0, a str unless empty. *)
Definition truthy (v : Cell) : bool :=
  match v with
  | CNull => true
  | CNum n => negb (n =? 0)
  | CStr s => negb (String.eqb s "")
  | CDate _ => true
  | CNpInt n => negb (n =? 0)
  | CFloat i f => negb (Qeq_bool (float_value i f) 0)
  end.

Record Table : Type := {
  columns : list string;
  rows : list (list Cell)
}.

(** [row[col]]; [None] stands for [col not in row.index]. *)
Fixpoint row_get (cols : list string) (cells : list Cell) (col : string)
  : option Cell :=
  match cols, cells with
  | c :: cols', v :: cells' =>
      if String.eqb c col then Some v else row_get cols' cells' col
  | _, _ => None
  end.

(** ** Configuration ([config.validation_config]) *)

Record ValidationConfig : Type := {
  cfg_rank_threshold : option Z;          (* rules.rank_threshold *)
  cfg_skip_columns : option (list string) (* skip_columns *)
}.

Definition rank_threshold (cfg : ValidationConfig) : Z :=
  match cfg_rank_threshold cfg with Some t => t | None => 5 end.

Definition skip_columns (cfg : ValidationConfig) : list string :=
  match cfg_skip_columns cfg with
  | Some l => l
  | None => ["q1"; "q2"; "q3"; "q4"; "h1"; "h2"; "quarterly";
             "half_yearly"; "half-yearly"]
  end.

(** ** Column classification *)

Definition is_skipped_column (skips : list string) (col : string) : bool :=
  existsb (fun skip => contains (lower skip) (lower col)) skips.

Definition validation_columns (cfg : ValidationConfig) (t : Table)
  : list string :=
  filter (fun col => negb (is_skipped_column (skip_columns cfg) col))
         (columns t).

Definition is_percentage_name (col : string) : bool :=
  orb (contains "%" col) (contains "percent" (lower col)).

Definition is_rank_name (col : string) : bool := contains "rank" (lower col).

Definition is_outcome_number_name (col : string) : bool :=
  contains "outcome number" (lower col).

Definition percentage_columns (cfg : ValidationConfig) (t : Table)
  : list string :=
  filter is_percentage_name (validation_columns cfg t).

Definition rank_columns (cfg : ValidationConfig) (t : Table) : list string :=
  filter is_rank_name (validation_columns cfg t).

(** The first column whose name contains "frequency". *)
Definition freq_col (t : Table) : option string :=
  find (fun col => contains "frequency" (lower col)) (columns t).

(** The row values that suppress validation of the row. *)
Definition frequency_skip_keywords : list string :=
  ["quarterly"; "half-yearly"; "half_yearly"].

(** ** Row verdicts and table reports *)

Inductive Status : Type := valid | missing | invalid | skipped.

(** The string the source stores under ['status']. *)
Definition status_name (s : Status) : string :=
  match s with
  | valid => "valid"
  | missing => "missing"
  | invalid => "invalid"
  | skipped => "skipped"
  end.

Record RowVerdict : Type := {
  row_index : nat;
  status : Status;
  details : string;
  missing_columns : list string;
  invalid_values : list string;
  validation_columns_checked : nat;
  frequency_info : option Cell
}.

(** [r['status'] == name] and [r['status'] in names]. *)
Definition status_is (name : string) (r : RowVerdict) : bool :=
  String.eqb (status_name (status r)) name.

Definition status_among (names : list string) (r : RowVerdict) : bool :=
  str_in (status_name (status r)) names.

(** The float produced by [valid_rows / total_rows * 100] is modelled by
    the exact rational. *)
Record Summary : Type := {
  total_rows : nat;
  valid_rows : nat;
  error_rows : nat;
  validation_rate : Q;
  total_columns : nat;
  s_validation_columns : nat;
  s_skipped_columns : list string;
  s_columns : list string;
  rank_threshold_used : Z
}.

(** An entry of a report's ['errors']: a row verdict, or the synthetic
    [{'type': 'validation_error', 'message': ...}] of the failure path. *)
Inductive ErrorEntry : Type :=
| RowError (r : RowVerdict)
| ValidationError (message : string).

(** The report of [validate_spreadsheet]. The failure path returns a dict
    without ['product_issue_results'] and with an empty ['summary']. *)
Record ValidationResult : Type := {
  sheet_name : option string;
  is_valid : bool;
  errors : list ErrorEntry;
  warnings : list RowVerdict;
  summary : option Summary;
  product_issue_results : option (list RowVerdict)
}.

(** What [ExcelParser.parse_excel_file] yields for one sheet: a frame, or
    an exception with its message. *)
Inductive Loaded : Type :=
| Parsed (t : Table)
| Unreadable (message : string).

(** ** The rule engine *)

Definition rank_message (col : string) (value : Cell) (threshold : Z)
  : string :=
  col ++ ": " ++ str_cell value ++ " exceeds rank threshold ("
      ++ str_int threshold ++ ")".

Definition outcome_message (col : string) (value : Cell) : string :=
  col ++ ": '" ++ str_cell value ++ "' is not a valid number".

(** [pd.isnull(value) or (isinstance(value, str) and value.strip() == '')]. *)
Definition is_missing (value : Cell) : bool :=
  orb (isnull value)
      (match value with CStr s => strip_is_empty s | _ => false end).

(** [Some q] exactly when [isinstance(value, (int, float))], [q] being
    the number held: a Python int or a float, not a [numpy.int64]. *)
Definition as_number (value : Cell) : option Q :=
  match value with
  | CNum n => Some (inject_Z n)
  | CFloat i f => Some (float_value i f)
  | _ => None
  end.

(** [value > rank_threshold] for a number and the integer threshold. *)
Definition exceeds (q : Q) (threshold : Z) : bool :=
  negb (Qle_bool q (inject_Z threshold)).

Section RuleEngine.

(** [float_ok s] : [float(s)] returns rather than raising. *)
Variable float_ok : string -> bool.

(** One iteration of [for col in validation_columns], on a column that
    is in [row.index]: what it appends to [missing_values] and to
    [invalid_values]. *)
Definition check_value (pcts ranks : list string) (threshold : Z)
           (col : string) (value : Cell) : list string * list string :=
  if is_missing value then ([col], [])
  else if str_in col pcts then ([], [])
  else match (if str_in col ranks then as_number value else None) with
       | Some q =>
           if exceeds q threshold
           then ([], [rank_message col value threshold])
           else ([], [])
       | None =>
           if andb (is_outcome_number_name col) (negb (isnull value))
           then if float_ok (str_cell value)
                then ([], [])
                else ([], [outcome_message col value])
           else ([], [])
       end.

(** The whole loop over the validated columns of one row. *)
Fixpoint check_columns (pcts ranks : list string) (threshold : Z)
         (cols : list string) (cells : list Cell) (todo : list string)
  : list string * list string :=
  match todo with
  | [] => ([], [])
  | col :: todo' =>
      let '(ms, ivs) :=
        match row_get cols cells col with
        | Some value => check_value pcts ranks threshold col value
        | None => ([], [])
        end in
      let '(ms', ivs') := check_columns pcts ranks threshold cols cells todo' in
      (ms ++ ms', ivs ++ ivs')
  end.

(** The frequency test at the head of the row loop: the value read from
    the frequency column, and [should_validate]. *)
Definition frequency_check (t : Table) (cells : list Cell)
  : option Cell * bool :=
  match freq_col t with
  | Some fc =>
      if negb (String.eqb fc "") then
        match row_get (columns t) cells fc with
        | Some fv =>
            if andb (truthy fv)
                    (str_in (lower (str_cell fv)) frequency_skip_keywords)
            then (Some fv, false)
            else (Some fv, true)
        | None => (None, true)
        end
      else (None, true)
  | None => (None, true)
  end.

(** The body of [for idx, row in df.iterrows()]. *)
Definition validate_row (cfg : ValidationConfig) (t : Table)
           (idx : nat) (cells : list Cell) : RowVerdict :=
  let vcols := validation_columns cfg t in
  let '(frequency_value, should_validate) := frequency_check t cells in
  if should_validate then
    let '(missing_values, invalid_vals) :=
      check_columns (percentage_columns cfg t) (rank_columns cfg t)
                    (rank_threshold cfg) (columns t) cells vcols in
    let status1 :=
      match missing_values with [] => valid | _ => missing end in
    let details1 :=
      match missing_values with
      | [] => []
      | _ => [("Missing values in: " ++ join ", " missing_values)%string]
      end in
    let status2 :=
      match invalid_vals with
      | [] => status1
      | _ => match status1 with valid => invalid | s => s end
      end in
    let row_details := details1 ++ invalid_vals in
    {| row_index := idx + 1;
       status := status2;
       details := match row_details with
                  | [] => "All validations passed"
                  | _ => join "; " row_details
                  end;
       missing_columns := missing_values;
       invalid_values := invalid_vals;
       validation_columns_checked := length vcols;
       frequency_info := frequency_value |}
  else
    let row_details :=
      [("Skipped due to frequency: "
          ++ match frequency_value with
             | Some fv => str_cell fv
             | None => "None"
             end)%string] in
    {| row_index := idx + 1;
       status := skipped;
       details := join "; " row_details;
       missing_columns := [];
       invalid_values := [];
       validation_columns_checked := length vcols;
       frequency_info := frequency_value |}.

(** [product_issue_results] : the verdicts of the rows from position
    [idx] on. *)
Fixpoint validate_rows (cfg : ValidationConfig) (t : Table) (idx : nat)
         (rs : list (list Cell)) : list RowVerdict :=
  match rs with
  | [] => []
  | cells :: rs' =>
      validate_row cfg t idx cells :: validate_rows cfg t (S idx) rs'
  end.

Definition count_where (p : RowVerdict -> bool) (rs : list RowVerdict)
  : nat := length (filter p rs).

(** [(valid_rows / total_rows * 100) if total_rows > 0 else 0]. *)
Definition rate (valid_n total_n : nat) : Q :=
  if Nat.ltb 0 total_n
  then (inject_Z (Z.of_nat valid_n) / inject_Z (Z.of_nat total_n)
        * inject_Z 100)%Q
  else 0%Q.

Definition summarise (cfg : ValidationConfig) (t : Table)
           (results : list RowVerdict) : Summary :=
  let vcols := validation_columns cfg t in
  let total := length (rows t) in
  let valid_n := count_where (status_is "valid") results in
  {| total_rows := total;
     valid_rows := valid_n;
     error_rows := count_where (fun r => negb (status_is "valid" r)) results;
     validation_rate := rate valid_n total;
     total_columns := length (columns t);
     s_validation_columns := length vcols;
     s_skipped_columns :=
       filter (fun col => negb (str_in col vcols)) (columns t);
     s_columns := columns t;
     rank_threshold_used := rank_threshold cfg |}.

(** [DataValidator.validate_spreadsheet], given what the parser
    returned for the sheet. *)
Definition validate_spreadsheet (cfg : ValidationConfig) (ld : Loaded)
           (sheet : option string) : ValidationResult :=
  match ld with
  | Parsed t =>
      let results := validate_rows cfg t 0 (rows t) in
      {| sheet_name := sheet;
         is_valid := forallb (status_is "valid") results;
         errors :=
           map RowError
               (filter (status_among ["error"; "invalid"]) results);
         warnings := filter (status_is "missing") results;
         summary := Some (summarise cfg t results);
         product_issue_results := Some results |}
  | Unreadable message =>
      {| sheet_name := None;
         is_valid := false;
         errors := [ValidationError message];
         warnings := [];
         summary := None;
         product_issue_results := None |}
  end.

End RuleEngine.

(** ** Schedules and dates *)

(** One entry of [product_schedule]. A key that is absent reads as
    [None] through [schedule.get]; [deadline_day], when present, is an
    integer. *)
Record Schedule : Type := {
  frequency : option string;
  deadline_day : option Z;
  deadline_months : option (list Z);
  deadline_month : option Z
}.

(** The fields of [datetime.now()] the workflow reads. *)
Record Date : Type := { day : Z; month : Z }.

(** ** Exceptions *)

Inductive Exn : Type :=
| TypeError (message : string)
| AttributeError (message : string)
| LoadError (message : string).

Inductive Result (A : Type) : Type :=
| Ok (a : A)
| Raised (e : Exn).

Arguments Ok {A} a.
Arguments Raised {A} e.

(** [int(deadline_day)] : [int(None)] raises [TypeError]. *)
Definition py_int (v : option Z) : Result Z :=
  match v with
  | Some d => Ok d
  | None =>
      Raised (TypeError "int() argument must be a string, a bytes-like object or a real number, not 'NoneType'")
  end.

(** The [if / elif / elif] test both schedule loops apply to one
    schedule: the branch that fired (named as in the per-sheet
    notification types), [None] when none did, or the exception raised
    by [int(deadline_day)]. The conversion is reached only after
    [freq == 'monthly'], or after the month test of the other two
    branches, has succeeded. *)
Definition schedule_branch (now : Date) (s : Schedule)
  : Result (option string) :=
  let freq := frequency s in
  let is_freq := fun tag =>
    match freq with Some f => String.eqb f tag | None => false end in
  if is_freq "monthly" then
    match py_int (deadline_day s) with
    | Raised e => Raised e
    | Ok d => if day now >=? d - 7 then Ok (Some "monthly") else Ok None
    end
  else if is_freq "bi-annual" then
    let months :=
      match deadline_months s with Some l => l | None => [] end in
    if existsb (Z.eqb (month now)) months then
      match py_int (deadline_day s) with
      | Raised e => Raised e
      | Ok d => if day now >=? d - 7 then Ok (Some "biannual") else Ok None
      end
    else Ok None
  else if is_freq "annual" then
    if match deadline_month s with
       | Some m => month now =? m
       | None => false
       end
    then
      match py_int (deadline_day s) with
      | Raised e => Raised e
      | Ok d => if day now >=? d - 28 then Ok (Some "annual") else Ok None
      end
    else Ok None
  else Ok None.

(** The schedule loop of [run_all_sheets]: [should_send_periodic] after
    the loop, started from the flag [acc]. *)
Fixpoint should_send_periodic (now : Date)
         (product_schedule : list (string * Schedule)) (acc : bool)
  : Result bool :=
  match product_schedule with
  | [] => Ok acc
  | (_, schedule) :: rest =>
      match schedule_branch now schedule with
      | Raised e => Raised e
      | Ok (Some _) => should_send_periodic now rest true
      | Ok None => should_send_periodic now rest acc
      end
  end.

(** ** Aggregate report and notifier *)

(** An error of the merged list: the entry with its ['sheet'] key. *)
Record TaggedError : Type := {
  te_sheet : string;
  te_entry : ErrorEntry
}.

Record AggregatedResult : Type := {
  agg_total_sheets : nat;
  agg_is_valid : bool;
  agg_errors : list TaggedError;
  agg_sheets_processed : list string;
  agg_total_errors : nat;
  agg_errors_by_sheet : list (string * nat);
  agg_periodic_trigger : bool;
  agg_message : option string
}.

Inductive Report : Type :=
| SheetReport (r : ValidationResult)
| AggregateReport (a : AggregatedResult).

(** One call of a method of [EmailNotifier], with its argument. *)
Inductive NotifierCall : Type :=
| MissingData (r : Report)
| Completion (r : Report).

(** The result dict of [ValidationWorkflow.run]. *)
Record WorkflowResult : Type := {
  wr_validation_result : option ValidationResult;
  wr_notification_sent : bool;
  wr_notification_type : option string;
  wr_workflow_status : string;
  wr_error : option Exn
}.

(** The result dict of [ValidationWorkflow.run_all_sheets]. *)
Record MultiSheetResult : Type := {
  all_sheets_results : list (string * WorkflowResult);
  aggregated_result : option AggregatedResult;
  notification_sent : bool;
  notification_type : option string;
  workflow_status : string;
  error : option Exn
}.

(** What [pd.ExcelFile(file_path)] and the later per-sheet reads give. *)
Inductive Workbook : Type :=
| Sheets (sheets : list (string * Loaded))
| Corrupt (message : string).

(** ** The notifier monad: the calls made so far are the state *)

Definition Notify (A : Type) : Type :=
  list NotifierCall -> A * list NotifierCall.

Definition ret {A : Type} (a : A) : Notify A := fun log => (a, log).

Definition bind {A B : Type} (m : Notify A) (k : A -> Notify B) : Notify B :=
  fun log => let '(a, log') := m log in k a log'.

Notation "x <- m ;; k" := (bind m (fun x => k))
  (at level 61, m at next level, right associativity).

(** The calls a computation makes when started with an empty log. *)
Definition calls_of {A : Type} (m : Notify A) : list NotifierCall :=
  snd (m []).

Definition result_of {A : Type} (m : Notify A) : A := fst (m []).

(** ** The workflow *)

Section Workflow.

Variable float_ok : string -> bool.

(** Whether the transport delivered the message of a call; the notifier
    methods catch their own exceptions and return this boolean. *)
Variable transport : NotifierCall -> bool.

(** [product in df.get('Product', [])] of the per-sheet loop. *)
Variable product_in_frame : string -> Table -> bool.

Definition send_missing_data_notification (r : Report) : Notify bool :=
  fun log => (transport (MissingData r), log ++ [MissingData r]).

Definition send_completion_notification (r : Report) : Notify bool :=
  fun log => (transport (Completion r), log ++ [Completion r]).

(** [validation_result['summary'].get('dataframe') if 'dataframe' in
    validation_result['summary'] else None] : neither shape of the
    summary built by [validate_spreadsheet] has that key. *)
Definition summary_dataframe (s : option Summary) : option Table := None.

(** The schedule loop of [run], entered only with a frame: the pair
    [(notification_sent, notification_type)] after the loop, or the
    exception that left it. *)
Fixpoint frequency_notifications (now : Date) (df : Table)
         (validation_result : ValidationResult)
         (product_schedule : list (string * Schedule))
         (st : bool * option string)
  : Notify (Result (bool * option string)) :=
  match product_schedule with
  | [] => ret (Ok st)
  | (product, schedule) :: rest =>
      match schedule_branch now schedule with
      | Raised e => ret (Raised e)
      | Ok (Some tag) =>
          if product_in_frame product df then
            sent <- send_missing_data_notification
                      (SheetReport validation_result) ;;
            frequency_notifications now df validation_result rest
              (sent, Some ("missing_data_" ++ product ++ "_" ++ tag)%string)
          else frequency_notifications now df validation_result rest st
      | Ok None =>
          frequency_notifications now df validation_result rest st
      end
  end.

(** [ValidationWorkflow.run] on one sheet. *)
Definition run (cfg : ValidationConfig)
           (product_schedule : list (string * Schedule)) (now : Date)
           (ld : Loaded) (sheet : option string) : Notify WorkflowResult :=
  let validation_result := validate_spreadsheet float_ok cfg ld sheet in
  looped <-
    match summary_dataframe (summary validation_result) with
    | Some df =>
        frequency_notifications now df validation_result product_schedule
                                (false, None)
    | None => ret (Ok (false, None))
    end ;;
  match looped with
  | Raised e =>
      ret {| wr_validation_result := Some validation_result;
             wr_notification_sent := false;
             wr_notification_type := None;
             wr_workflow_status := "failed";
             wr_error := Some e |}
  | Ok (sent0, type0) =>
      if negb sent0 then
        if negb (is_valid validation_result) then
          sent <- send_missing_data_notification
                    (SheetReport validation_result) ;;
          ret {| wr_validation_result := Some validation_result;
                 wr_notification_sent := sent;
                 wr_notification_type := Some "missing_data";
                 wr_workflow_status := "completed_with_issues";
                 wr_error := None |}
        else
          sent <- send_completion_notification
                    (SheetReport validation_result) ;;
          ret {| wr_validation_result := Some validation_result;
                 wr_notification_sent := sent;
                 wr_notification_type := Some "completion";
                 wr_workflow_status := "completed_success";
                 wr_error := None |}
      else
        ret {| wr_validation_result := Some validation_result;
               wr_notification_sent := sent0;
               wr_notification_type := type0;
               wr_workflow_status := "completed_with_issues";
               wr_error := None |}
  end.

(** The variables of the sheet loop of [run_all_sheets]. *)
Record LoopState : Type := {
  ls_results : list (string * WorkflowResult);
  ls_all_errors : list TaggedError;
  ls_all_valid : bool
}.

Definition loop_start : LoopState :=
  {| ls_results := []; ls_all_errors := []; ls_all_valid := true |}.

(** [for error in errors: error['sheet'] = sheet; all_errors.append(error)].
    The dicts tagged here are the ones held by the sheet's own report. *)
Definition tag_errors (sheet : string) (es : list ErrorEntry)
  : list TaggedError :=
  map (fun e => {| te_sheet := sheet; te_entry := e |}) es.

(** [for sheet in sheet_names], with the exception that interrupts it,
    if any ([sheet_result['validation_result']] being [None]). *)
Fixpoint sheet_loop (cfg : ValidationConfig)
         (product_schedule : list (string * Schedule)) (now : Date)
         (sheets : list (string * Loaded)) (st : LoopState)
  : Notify (LoopState * option Exn) :=
  match sheets with
  | [] => ret (st, None)
  | (sheet, ld) :: rest =>
      sheet_result <- run cfg product_schedule now ld (Some sheet) ;;
      let st1 :=
        {| ls_results := ls_results st ++ [(sheet, sheet_result)];
           ls_all_errors := ls_all_errors st;
           ls_all_valid := ls_all_valid st |} in
      match wr_validation_result sheet_result with
      | None =>
          ret (st1, Some (AttributeError
                 "'NoneType' object has no attribute 'get'"))
      | Some validation_result =>
          if negb (is_valid validation_result) then
            sheet_loop cfg product_schedule now rest
              {| ls_results := ls_results st1;
                 ls_all_errors :=
                   ls_all_errors st1
                     ++ tag_errors sheet (errors validation_result);
                 ls_all_valid := false |}
          else sheet_loop cfg product_schedule now rest st1
      end
  end.

Definition failed_run (results : list (string * WorkflowResult)) (e : Exn)
  : MultiSheetResult :=
  {| all_sheets_results := results;
     aggregated_result := None;
     notification_sent := false;
     notification_type := None;
     workflow_status := "failed";
     error := Some e |}.

Definition count_for_sheet (all_errors : list TaggedError) (sheet : string)
  : nat :=
  length (filter (fun e => String.eqb (te_sheet e) sheet) all_errors).

(** The dict built under [# Aggregate results]. *)
Definition aggregate (sheet_names : list string) (st : LoopState)
           (periodic : bool) (message : option string)
  : AggregatedResult :=
  {| agg_total_sheets := length sheet_names;
     agg_is_valid := ls_all_valid st;
     agg_errors := ls_all_errors st;
     agg_sheets_processed := sheet_names;
     agg_total_errors := length (ls_all_errors st);
     agg_errors_by_sheet :=
       map (fun sheet => (sheet, count_for_sheet (ls_all_errors st) sheet))
           sheet_names;
     agg_periodic_trigger := periodic;
     agg_message := message |}.

(** [ValidationWorkflow.run_all_sheets]. *)
Definition run_all_sheets (file_path : string) (cfg : ValidationConfig)
           (product_schedule : list (string * Schedule)) (now : Date)
           (wb : Workbook) : Notify MultiSheetResult :=
  match wb with
  | Corrupt message => ret (failed_run [] (LoadError message))
  | Sheets sheets =>
      looped <- sheet_loop cfg product_schedule now sheets loop_start ;;
      let '(st, interrupted) := looped in
      match interrupted with
      | Some e => ret (failed_run (ls_results st) e)
      | None =>
          match should_send_periodic now product_schedule false with
          | Raised e => ret (failed_run (ls_results st) e)
          | Ok periodic =>
              let sheet_names := map fst sheets in
              if orb (negb (ls_all_valid st)) periodic then
                let aggregated :=
                  aggregate sheet_names st periodic
                    (Some ("File '" ++ file_path
                           ++ "' has missing/invalid data. Please check the attached summary.")%string) in
                sent <- send_missing_data_notification
                          (AggregateReport aggregated) ;;
                ret {| all_sheets_results := ls_results st;
                       aggregated_result := Some aggregated;
                       notification_sent := sent;
                       notification_type := Some "missing_data_aggregated";
                       workflow_status := "completed_with_issues";
                       error := None |}
              else
                let aggregated :=
                  aggregate sheet_names st periodic
                    (Some ("File '" ++ file_path
                           ++ "' has no issues. All sheets validated successfully.")%string) in
                sent <- send_completion_notification
                          (AggregateReport aggregated) ;;
                ret {| all_sheets_results := ls_results st;
                       aggregated_result := Some aggregated;
                       notification_sent := sent;
                       notification_type := Some "completion_aggregated";
                       workflow_status := "completed_success";
                       error := None |}
          end
      end
  end.

End Workflow.

(** ** [str.split] on a one-character separator *)

(** [s.split(sep)] : the fields between the occurrences of [sep]; never
    the empty list. *)
Fixpoint split_on (sep : ascii) (s : string) : list string :=
  match s with
  | EmptyString => [EmptyString]
  | String c s' =>
      if Ascii.eqb c sep then EmptyString :: split_on sep s'
      else match split_on sep s' with
           | [] => [String c EmptyString]
           | field :: fields => String c field :: fields
           end
  end.

(** ** [utils/config.py] : [Config.get] *)

(** What [yaml.safe_load] returns. *)
#[warnings="-register-all"] Inductive Yaml : Type :=
| YNull
| YBool (b : bool)
| YInt (n : Z)
| YStr (s : string)
| YList (items : list Yaml)
| YDict (items : list (string * Yaml)).

(** [d[k]] with [k in d], on the items of a dict. *)
Fixpoint dict_get {A : Type} (items : list (string * A)) (k : string)
  : option A :=
  match items with
  | [] => None
  | (k', v) :: items' => if String.eqb k' k then Some v else dict_get items' k
  end.

(** The loop [for k in keys] of [Config.get]: [None] when it leaves
    through [return default]. *)
Fixpoint config_walk (value : Yaml) (keys : list string) : option Yaml :=
  match keys with
  | [] => Some value
  | k :: keys' =>
      match value with
      | YDict items =>
          match dict_get items k with
          | Some v => config_walk v keys'
          | None => None
          end
      | _ => None
      end
  end.

(** [Config.get(key, default)]. *)
Definition config_get (config : Yaml) (key : string) (default : Yaml)
  : Yaml :=
  match config_walk config (split_on "."%char key) with
  | Some v => v
  | None => default
  end.

(** The properties [email_config], [validation_config], ... *)
Definition email_config (config : Yaml) : Yaml :=
  config_get config "email" (YDict []).
Definition business_unit_config (config : Yaml) : Yaml :=
  config_get config "business_unit" (YDict []).
Definition validation_config (config : Yaml) : Yaml :=
  config_get config "validation" (YDict []).
Definition file_upload_config (config : Yaml) : Yaml :=
  config_get config "file_upload" (YDict []).
Definition notification_config (config : Yaml) : Yaml :=
  config_get config "notification" (YDict []).

(** ** [DataValidator._check_product_frequency] *)

Record FrequencyInfo : Type := {
  fi_product : string;
  fi_frequency : string;
  fi_should_validate : bool;
  fi_status : string;
  fi_message : string
}.

(** [current_date.strftime("%B")] in the C locale. *)
Definition month_name (m : Z) : string :=
  match m with
  | 1 => "January" | 2 => "February" | 3 => "March" | 4 => "April"
  | 5 => "May" | 6 => "June" | 7 => "July" | 8 => "August"
  | 9 => "September" | 10 => "October" | 11 => "November"
  | _ => "December"
  end.

(** [_check_product_frequency(product)] in month [current_month]. The
    handler of its [try] is not reached: nothing in the body raises. *)
Definition check_product_frequency
           (product_schedule : list (string * Schedule)) (current_month : Z)
           (product : string) : FrequencyInfo :=
  let freq :=
    match dict_get product_schedule product with
    | Some product_config =>
        match frequency product_config with
        | Some f => f
        | None => "monthly"
        end
    | None => "monthly"
    end in
  if String.eqb freq "monthly" then
    {| fi_product := product; fi_frequency := freq;
       fi_should_validate := true; fi_status := "valid";
       fi_message := "Monthly validation - always active" |}
  else if String.eqb freq "bi-annual" then
    if negb (orb (current_month =? 6) (current_month =? 12)) then
      {| fi_product := product; fi_frequency := freq;
         fi_should_validate := false; fi_status := "skipped";
         fi_message :=
           "Bi-annual product - validation only in June/December (current: "
             ++ month_name current_month ++ ")" |}
    else
      {| fi_product := product; fi_frequency := freq;
         fi_should_validate := true; fi_status := "valid";
         fi_message :=
           "Bi-annual validation active - " ++ month_name current_month |}
  else if String.eqb freq "annual" then
    if negb (current_month =? 12) then
      {| fi_product := product; fi_frequency := freq;
         fi_should_validate := false; fi_status := "skipped";
         fi_message :=
           "Annual product - validation only in December (current: "
             ++ month_name current_month ++ ")" |}
    else
      {| fi_product := product; fi_frequency := freq;
         fi_should_validate := true; fi_status := "valid";
         fi_message := "Annual validation active - December" |}
  else
    {| fi_product := product; fi_frequency := freq;
       fi_should_validate := true; fi_status := "valid";
       fi_message := "" |}.

(** ** [DataValidator._check_missing_data] *)

Record MissingDataDetails : Type := {
  has_missing_data : bool;
  missing_rows : list nat;
  missing_by_column : list (string * (nat * list nat));
  rows_with_many_missing : option (list nat);
  total_missing_values : nat
}.

(** The rows with their index labels 0, 1, ... *)
Definition indexed_rows (t : Table) : list (nat * list Cell) :=
  combine (seq 0 (length (rows t))) (rows t).

(** [df[mask].index.tolist()] for a mask computed row by row. *)
Definition rows_where (p : list Cell -> bool) (t : Table) : list nat :=
  map fst (filter (fun ir => p (snd ir)) (indexed_rows t)).

(** The number of null cells of a row. *)
Definition null_count (cells : list Cell) : nat :=
  length (filter isnull cells).

(** [df[column].isnull()] on one row. *)
Definition null_in (t : Table) (column : string) (cells : list Cell) : bool :=
  match row_get (columns t) cells column with
  | Some v => isnull v
  | None => false
  end.

(** [d[k] = v] on the items of a dict: the key keeps its place. *)
Fixpoint dict_set {A : Type} (items : list (string * A)) (k : string) (v : A)
  : list (string * A) :=
  match items with
  | [] => [(k, v)]
  | (k', v') :: items' =>
      if String.eqb k' k then (k, v) :: items'
      else (k', v') :: dict_set items' k v
  end.

(** One iteration of [for column in self.non_nullable_columns], on the
    pair ([has_missing_data], [missing_by_column]). *)
Definition non_nullable_step (t : Table)
           (st : bool * list (string * (nat * list nat))) (column : string)
  : bool * list (string * (nat * list nat)) :=
  if str_in column (columns t) then
    let null_rows := rows_where (null_in t column) t in
    if Nat.ltb 0 (length null_rows)
    then (true, dict_set (snd st) column (length null_rows, null_rows))
    else st
  else st.

(** [len(df.columns) * 0.5 < n], on integers. *)
Definition many_missing (t : Table) (cells : list Cell) : bool :=
  Nat.ltb (length (columns t)) (2 * null_count cells).

(** [_check_missing_data(df)], [non_nullable_columns] being the list of
    the configuration. *)
Definition check_missing_data (non_nullable_columns : list string)
           (t : Table) : MissingDataDetails :=
  let empty_rows := rows_where (forallb isnull) t in
  let flag1 := match empty_rows with [] => false | _ => true end in
  let '(flag2, by_column) :=
    fold_left (non_nullable_step t) non_nullable_columns (flag1, []) in
  let many := rows_where (many_missing t) t in
  {| has_missing_data :=
       match many with [] => flag2 | _ => true end;
     missing_rows := empty_rows;
     missing_by_column := by_column;
     rows_with_many_missing :=
       match many with [] => None | _ => Some many end;
     total_missing_values := list_sum (map null_count (rows t)) |}.

(** ** [ExcelParser.validate_file_structure] *)

Definition validate_file_structure (t : Table)
           (required_columns : list string) : bool * list string :=
  let missing_cols :=
    filter (fun col => negb (str_in col (columns t))) required_columns in
  (Nat.eqb (length missing_cols) 0, missing_cols).

(** ** [utils/database.py] : the table [validation_data] *)

Record FileRecord : Type := {
  fr_id : Z;
  fr_filename : string;
  fr_file_data : string;
  fr_upload_date : string;
  fr_file_type : string;
  fr_sheet_names : string;
  fr_metadata : string
}.

(** The rows of [validation_data], in insertion order. *)
Definition Database : Type := list FileRecord.

(** The id an [AUTOINCREMENT] key gives the next row: one more than the
    largest id of the table. *)
Definition next_id (db : Database) : Z :=
  1 + fold_right Z.max 0 (map fr_id db).

(** [','.join(sheet_names) if sheet_names else ''] ; [sheet_names] is
    [None] by default. *)
Definition sheet_names_str (sheet_names : option (list string)) : string :=
  match sheet_names with
  | Some (name :: names) => join "," (name :: names)
  | _ => ""
  end.

(** [row[3].split(',') if row[3] else []]. *)
Definition sheet_names_of (text : string) : list string :=
  if String.eqb text "" then [] else split_on ","%char text.

(** [store_file_data]: the database after the call and the boolean
    returned. [connection] is [None] before [connect]; the attribute
    error this causes is caught and gives [False]. [metadata] is the
    [str()] of the dict, [None] when it is absent or empty; [timestamp]
    is [CURRENT_TIMESTAMP]. *)
Definition store_file_data (connection : option Database) (timestamp : string)
           (filename file_data file_type : string)
           (sheet_names : option (list string)) (metadata : option string)
  : option Database * bool :=
  match connection with
  | None => (None, false)
  | Some db =>
      (Some (db ++ [{| fr_id := next_id db;
                       fr_filename := filename;
                       fr_file_data := file_data;
                       fr_upload_date := timestamp;
                       fr_file_type := file_type;
                       fr_sheet_names := sheet_names_str sheet_names;
                       fr_metadata := match metadata with
                                      | Some m => m
                                      | None => ""
                                      end |}]),
       true)
  end.

(** [SELECT ... WHERE id = ?] followed by [fetchone]. *)
Definition select_by_id (db : Database) (file_id : Z) : option FileRecord :=
  find (fun r => fr_id r =? file_id) db.

(** [get_file_data(file_id)]. *)
Definition get_file_data (connection : option Database) (file_id : Z)
  : option string :=
  match connection with
  | None => None
  | Some db => option_map fr_file_data (select_by_id db file_id)
  end.

Record FileInfo : Type := {
  info_filename : string;
  info_upload_date : string;
  info_file_type : string;
  info_sheet_names : list string;
  info_metadata : string
}.

(** [get_file_info(file_id)]. *)
Definition get_file_info (connection : option Database) (file_id : Z)
  : option FileInfo :=
  match connection with
  | None => None
  | Some db =>
      option_map
        (fun r => {| info_filename := fr_filename r;
                     info_upload_date := fr_upload_date r;
                     info_file_type := fr_file_type r;
                     info_sheet_names := sheet_names_of (fr_sheet_names r);
                     info_metadata := fr_metadata r |})
        (select_by_id db file_id)
  end.

(** ** Definitions used to state the properties *)

(** The characters of a string, to reason with the lemmas on lists. *)
Definition chars (s : string) : list ascii := list_ascii_of_string s.

(** The report [run] obtains for one sheet of the workbook. *)
Definition sheet_report (float_ok : string -> bool) (cfg : ValidationConfig)
           (entry : string * Loaded) : ValidationResult :=
  validate_spreadsheet float_ok cfg (snd entry) (Some (fst entry)).

(** The notifier call [run] makes for one sheet. *)
Definition sheet_call (float_ok : string -> bool) (cfg : ValidationConfig)
           (entry : string * Loaded) : NotifierCall :=
  if is_valid (sheet_report float_ok cfg entry)
  then Completion (SheetReport (sheet_report float_ok cfg entry))
  else MissingData (SheetReport (sheet_report float_ok cfg entry)).

(** The result dict [run] returns for one sheet. *)
Definition sheet_result (float_ok : string -> bool)
           (transport : NotifierCall -> bool) (cfg : ValidationConfig)
           (entry : string * Loaded) : WorkflowResult :=
  let vr := sheet_report float_ok cfg entry in
  {| wr_validation_result := Some vr;
     wr_notification_sent := transport (sheet_call float_ok cfg entry);
     wr_notification_type :=
       Some (if is_valid vr then "completion" else "missing_data");
     wr_workflow_status :=
       if is_valid vr then "completed_success" else "completed_with_issues";
     wr_error := None |}.

Definition is_invalid (r : RowVerdict) : bool :=
  match status r with invalid => true | _ => false end.

Definition is_status_valid (r : RowVerdict) : bool :=
  match status r with valid => true | _ => false end.

(** The merged error list as the workflow builds it: for each sheet in
    processing order, the verdicts of status [invalid] in row order, or
    the synthetic entry of a sheet that could not be read. *)
Definition merged_errors (float_ok : string -> bool) (cfg : ValidationConfig)
           (sheets : list (string * Loaded)) : list TaggedError :=
  flat_map
    (fun entry =>
       match snd entry with
       | Parsed t =>
           map (fun r => {| te_sheet := fst entry; te_entry := RowError r |})
               (filter is_invalid (validate_rows float_ok cfg t 0 (rows t)))
       | Unreadable message =>
           [{| te_sheet := fst entry;
               te_entry := ValidationError message |}]
       end)
    sheets.

(** The recurrence rules in the words of the specification: the window
    of a schedule whose parameters are all present. *)
Definition due_by_spec (now : Date) (s : Schedule) : Prop :=
  (frequency s = Some "monthly" /\
   exists d, deadline_day s = Some d /\ day now >= d - 7) \/
  (frequency s = Some "bi-annual" /\
   exists months d, deadline_months s = Some months /\
                    deadline_day s = Some d /\
                    In (month now) months /\ day now >= d - 7) \/
  (frequency s = Some "annual" /\
   exists m d, deadline_month s = Some m /\ deadline_day s = Some d /\
               month now = m /\ day now >= d - 28).

(** A schedule with a known frequency tag and the parameters of that
    tag. *)
Definition well_formed (s : Schedule) : Prop :=
  deadline_day s <> None /\
  (frequency s = Some "monthly" \/
   (frequency s = Some "bi-annual" /\ deadline_months s <> None) \/
   (frequency s = Some "annual" /\ deadline_month s <> None)).

(** A frequency tag none of the three branches tests for. *)
Definition unrecognized (s : Schedule) : Prop :=
  frequency s <> Some "monthly" /\ frequency s <> Some "bi-annual" /\
  frequency s <> Some "annual".

(** The schedules that reach [int(deadline_day)] own a [deadline_day]. *)
Definition day_present (s : Schedule) : Prop :=
  unrecognized s \/ deadline_day s <> None.

(** A schedule no branch can fire for, whatever the date: an
    unrecognized tag, a bi-annual schedule without [deadline_months], an
    annual schedule without [deadline_month]. *)
Definition no_window (s : Schedule) : Prop :=
  unrecognized s \/
  (frequency s = Some "bi-annual" /\ deadline_months s = None) \/
  (frequency s = Some "annual" /\ deadline_month s = None).

(** The variables of the sheet loop once every sheet has been run. *)
Definition loop_end (float_ok : string -> bool)
           (transport : NotifierCall -> bool) (cfg : ValidationConfig)
           (sheets : list (string * Loaded)) : LoopState :=
  {| ls_results :=
       map (fun e => (fst e, sheet_result float_ok transport cfg e)) sheets;
     ls_all_errors := merged_errors float_ok cfg sheets;
     ls_all_valid :=
       forallb (fun e => is_valid (sheet_report float_ok cfg e)) sheets |}.

(** The two messages of the aggregated notification. *)
Definition issues_message (file_path : string) : string :=
  "File '" ++ file_path
    ++ "' has missing/invalid data. Please check the attached summary.".

Definition clean_message (file_path : string) : string :=
  "File '" ++ file_path
    ++ "' has no issues. All sheets validated successfully.".

(** ** Sample inputs *)

(** No [rules.rank_threshold] and no [skip_columns] key: the defaults. *)
Definition default_config : ValidationConfig :=
  {| cfg_rank_threshold := None; cfg_skip_columns := None |}.

(** A [float] that accepts every string, a transport that delivers every
    message, a frame in which no product is found. *)
Definition accept_all (s : string) : bool := true.
Definition delivered (c : NotifierCall) : bool := true.
Definition no_product (product : string) (df : Table) : bool := false.

(** One row, nothing missing. *)
Definition clean_table : Table :=
  {| columns := ["ID"; "Name"]; rows := [[CNum 1; CStr "Alice"]] |}.

(** Rows that are valid, missing, skipped and invalid, in that order. *)
Definition mixed_table : Table :=
  {| columns := ["Name"; "Frequency"; "Rank"];
     rows := [[CStr "a"; CStr "Monthly"; CNum 3];
              [CNull; CStr "Monthly"; CNum 3];
              [CStr "c"; CStr "Quarterly"; CNum 9];
              [CStr "d"; CStr "Monthly"; CNum 9]] |}.

(** The float [n.0], as [str()] prints a float that is a whole number. *)
Definition whole (n : Z) : Cell :=
  CFloat (Z.to_int n) (Decimal.D0 Decimal.Nil).

(** A column that is both a rank and a percentage column, in a frame
    with a text column: its integer cells are Python ints. *)
Definition rank_percent_table : Table :=
  {| columns := ["Name"; "Rank"; "Rank %"];
     rows := [[CStr "a"; CNum 7; CNum 7]; [CStr "b"; CNum 5; CNum 5]] |}.

(** A frame whose columns are all integer: its cells are numpy
    integers. *)
Definition integer_table : Table :=
  {| columns := ["Rank"; "Outcome Number"];
     rows := [[CNpInt 7; CNpInt 12]; [CNpInt 3; CNpInt 0]] |}.


(** Only rows skipped by frequency. *)
Definition skipped_table : Table :=
  {| columns := ["Name"; "Frequency"];
     rows := [[CStr "a"; CStr "Quarterly"]; [CNull; CStr "Half-Yearly"]] |}.

Definition monthly (d : option Z) : Schedule :=
  {| frequency := Some "monthly"; deadline_day := d;
     deadline_months := None; deadline_month := None |}.

Definition bi_annual (months : option (list Z)) (d : option Z) : Schedule :=
  {| frequency := Some "bi-annual"; deadline_day := d;
     deadline_months := months; deadline_month := None |}.

Definition annual (m : option Z) (d : option Z) : Schedule :=
  {| frequency := Some "annual"; deadline_day := d;
     deadline_months := None; deadline_month := m |}.

Definition weekly : Schedule :=
  {| frequency := Some "weekly"; deadline_day := None;
     deadline_months := None; deadline_month := None |}.

Definition march_25 : Date := {| day := 25; month := 3 |}.

(** ** Further definitions used to state properties *)

Definition is_skipped (r : RowVerdict) : bool :=
  match status r with skipped => true | _ => false end.

Definition is_missing_status (r : RowVerdict) : bool :=
  match status r with missing => true | _ => false end.

(** Every row has one cell per column. *)
Definition rectangular (t : Table) : Prop :=
  Forall (fun cells => length cells = length (columns t)) (rows t).

(** [c] does not occur in [s]. *)
Definition lacks (c : ascii) (s : string) : Prop := ~ In c (chars s).

(** A column skipped by the default fragments ("q1"), and a name. *)
Definition quarter_table : Table :=
  {| columns := ["Name"; "Q1 Sales"];
     rows := [[CStr "a"; CNull]; [CStr "b"; whole 4]] |}.

(** The exception of [int(None)]. *)
Definition int_of_none : Exn :=
  TypeError "int() argument must be a string, a bytes-like object or a real number, not 'NoneType'".

(** The test of a schedule gets as far as [int(deadline_day)]: the
    schedule is monthly, or bi-annual or annual in one of its months. *)
Definition reaches_int (now : Date) (s : Schedule) : Prop :=
  frequency s = Some "monthly" \/
  (frequency s = Some "bi-annual" /\
   exists months, deadline_months s = Some months /\ In (month now) months) \/
  (frequency s = Some "annual" /\ deadline_month s = Some (month now)).

Definition branch_raises (now : Date) (s : Schedule) : bool :=
  match schedule_branch now s with Raised _ => true | Ok _ => false end.

Definition branch_fires (now : Date) (s : Schedule) : bool :=
  match schedule_branch now s with Ok (Some _) => true | _ => false end.

(** The rows in which [column] is null, and whether the loop over the
    non-nullable columns records the column. *)
Definition column_nulls (t : Table) (column : string) : list nat :=
  rows_where (null_in t column) t.

Definition column_recorded (t : Table) (column : string) : bool :=
  andb (str_in column (columns t))
       (Nat.ltb 0 (length (column_nulls t column))).

(** A frame with a null in every second cell of its first row. *)
Definition sparse_table : Table :=
  {| columns := ["ID"; "Name"; "Zip"];
     rows := [[whole 1; CNull; CNull]; [whole 2; CStr "b"; whole 7];
              [CNull; CNull; CNull]] |}.

(** A configuration whose [skip_columns] holds the empty fragment. *)
Definition empty_fragment_config : ValidationConfig :=
  {| cfg_rank_threshold := None; cfg_skip_columns := Some [""] |}.

(** A sheet with a header and no row. *)
Definition header_only_table : Table :=
  {| columns := ["ID"; "Name"]; rows := [] |}.

(** * Properties *)

(** ** Strings *)

Lemma chars_app (a b : string) :
  chars (a ++ b) = (chars a ++ chars b)%list.
Proof.
  induction a as [|c a IH]; simpl.
  - reflexivity.
  - unfold chars in *. simpl. now rewrite IH.
Qed.

Lemma chars_inj (a b : string) : chars a = chars b -> a = b.
Proof.
  intro H.
  rewrite <- (string_of_list_ascii_of_string a),
          <- (string_of_list_ascii_of_string b).
  unfold chars in H. now rewrite H.
Qed.

Lemma str_in_In (x : string) (xs : list string) :
  str_in x xs = true <-> In x xs.
Proof.
  unfold str_in. rewrite existsb_exists. split.
  - intros [y [Hy Heq]]. apply String.eqb_eq in Heq. now subst.
  - intro H. exists x. split; [assumption | apply String.eqb_refl].
Qed.

Lemma str_in_false (x : string) (xs : list string) :
  str_in x xs = false <-> ~ In x xs.
Proof.
  rewrite <- str_in_In. destruct (str_in x xs); split; intro H;
    try reflexivity; try discriminate; try (intro; discriminate).
  exfalso. now apply H.
Qed.

(** The decimal rendering of an integer has no blank in it. *)
Lemma uint_chars_no_space (d : Decimal.uint) :
  ~ In " "%char (chars (NilEmpty.string_of_uint d)).
Proof.
  induction d; simpl; intro H;
    try (destruct H as [H | H]; [discriminate | auto]); auto.
Qed.

Lemma str_int_no_space (n : Z) : ~ In " "%char (chars (str_int n)).
Proof.
  unfold str_int, NilZero.string_of_int, NilZero.string_of_uint.
  destruct (Z.to_int n) as [d | d]; destruct d;
    simpl; intros H;
    repeat (destruct H as [H | H]; [discriminate |]);
    try (now apply (uint_chars_no_space _ H)); try contradiction.
Qed.

(** A prefix is determined by what follows it: a two-character
    separator, a field without the second separator character, and a
    common tail. *)
Lemma separated_prefix_unique (A : Type) (a b : A)
      (c1 c2 d1 d2 tail : list A) :
  ~ In b d1 -> ~ In b d2 ->
  (c1 ++ [a; b] ++ d1 ++ tail = c2 ++ [a; b] ++ d2 ++ tail)%list ->
  c1 = c2.
Proof.
  intros H1 H2 H.
  apply (f_equal (@rev A)) in H.
  rewrite !rev_app_distr in H. simpl in H.
  rewrite <- !app_assoc in H.
  apply app_inv_head in H. simpl in H.
  apply app_inj_pivot in H.
  destruct H as [[[H _] | [_ H]] | [_ H]].
  - apply in_rev in H. contradiction.
  - apply in_rev in H. contradiction.
  - injection H as H. apply (f_equal (@rev A)) in H.
    now rewrite !rev_involutive in H.
Qed.

Lemma nz_uint_no_space (d : Decimal.uint) :
  ~ In " "%char (chars (NilZero.string_of_uint d)).
Proof.
  unfold NilZero.string_of_uint. destruct d;
    try apply uint_chars_no_space.
  simpl. intros [H | []]. discriminate.
Qed.

Lemma nz_int_no_space (i : Decimal.signed_int) :
  ~ In " "%char (chars (NilZero.string_of_int i)).
Proof.
  destruct i as [d | d]; simpl.
  - apply nz_uint_no_space.
  - intros [H | H]; [discriminate | now apply (nz_uint_no_space d)].
Qed.

(** The text of a cell the rank check takes for a number has no blank. *)
Lemma number_text_no_space (v : Cell) (q : Q) :
  as_number v = Some q -> ~ In " "%char (chars (str_cell v)).
Proof.
  destruct v as [| n | s | s | n | i f]; try discriminate; intros _; simpl.
  - apply str_int_no_space.
  - unfold str_float. rewrite !chars_app, !in_app_iff.
    intros [H | [H | H]].
    + now apply (nz_int_no_space i).
    + simpl in H. destruct H as [H | []]. discriminate.
    + now apply (nz_uint_no_space f).
Qed.

(** The text of a number is made of digits, a sign and a point, so
    its lower-case form is none of the frequency keywords. *)
Lemma uint_chars_numeral (d : Decimal.uint) (c : ascii) :
  In c (chars (NilEmpty.string_of_uint d)) -> In c (chars "-.0123456789").
Proof.
  induction d; intro H; [contradiction | ..];
    (destruct H as [H | H]; [subst c; simpl; tauto | exact (IHd H)]).
Qed.

Lemma nz_uint_chars_numeral (d : Decimal.uint) (c : ascii) :
  In c (chars (NilZero.string_of_uint d)) -> In c (chars "-.0123456789").
Proof.
  unfold NilZero.string_of_uint. destruct d;
    try apply uint_chars_numeral.
  simpl. intros [H | []]. subst c. tauto.
Qed.

Lemma nz_int_chars_numeral (i : Decimal.signed_int) (c : ascii) :
  In c (chars (NilZero.string_of_int i)) -> In c (chars "-.0123456789").
Proof.
  destruct i as [d | d]; simpl.
  - apply nz_uint_chars_numeral.
  - intros [H | H]; [subst c; simpl; tauto | now apply (nz_uint_chars_numeral d)].
Qed.

Lemma chars_lower (s : string) : chars (lower s) = map lower_ascii (chars s).
Proof.
  induction s as [| c s IH]; simpl.
  - reflexivity.
  - unfold chars in *. simpl. now rewrite IH.
Qed.

Lemma numeral_not_keyword (s : string) :
  (forall c, In c (chars s) -> In c (chars "-.0123456789")) ->
  str_in (lower s) frequency_skip_keywords = false.
Proof.
  intro Hs. apply str_in_false. intro Hin.
  assert (Hr : In "r"%char (chars (lower s))).
  { simpl in Hin.
    destruct Hin as [H | [H | [H | []]]]; rewrite <- H; simpl; tauto. }
  rewrite chars_lower in Hr. apply in_map_iff in Hr.
  destruct Hr as [c [Hc Hin']]. apply Hs in Hin'. simpl in Hin'.
  repeat (destruct Hin' as [<- | Hin']; [discriminate |]).
  contradiction.
Qed.

Lemma number_cell_not_keyword (v : Cell) :
  match v with
  | CNum _ | CNpInt _ | CFloat _ _ =>
      str_in (lower (str_cell v)) frequency_skip_keywords = false
  | _ => True
  end.
Proof.
  destruct v as [| n | s | s | n | i f]; try exact I;
    apply numeral_not_keyword; intros c; simpl.
  - apply nz_int_chars_numeral.
  - apply nz_int_chars_numeral.
  - unfold str_float. rewrite !chars_app, !in_app_iff.
    intros [H | [H | H]].
    + now apply (nz_int_chars_numeral i).
    + simpl in H. destruct H as [<- | []]. simpl. tauto.
    + now apply (nz_uint_chars_numeral f).
Qed.

(** A cell whose text is a frequency keyword is true in a test. *)
Lemma keyword_cell_truthy (fv : Cell) :
  str_in (lower (str_cell fv)) frequency_skip_keywords = true ->
  truthy fv = true.
Proof.
  intro Hkw. pose proof (number_cell_not_keyword fv) as Hnum.
  destruct fv as [| n | s | s | n | i f]; simpl; try reflexivity;
    try congruence.
  destruct (String.eqb_spec s "") as [-> | Hs]; [discriminate | reflexivity].
Qed.

(** Two rank messages with the same threshold, for values the rank
    check takes for numbers, name the same column. *)
Lemma rank_message_inj (c1 c2 : string) (v1 v2 : Cell) (q1 q2 : Q) (t : Z) :
  as_number v1 = Some q1 -> as_number v2 = Some q2 ->
  rank_message c1 v1 t = rank_message c2 v2 t -> c1 = c2.
Proof.
  unfold rank_message. intros H1 H2 H.
  apply (f_equal chars) in H.
  rewrite !chars_app in H.
  apply chars_inj.
  apply (separated_prefix_unique _ ":"%char " "%char _ _
           (chars (str_cell v1)) (chars (str_cell v2))
           (chars " exceeds rank threshold (" ++ chars (str_int t)
              ++ chars ")")%list);
    eauto using number_text_no_space.
Qed.

(** A rank message is never an outcome-number message. *)
Lemma rank_message_not_outcome (c1 c2 : string) (v : Cell) (t : Z)
      (x : Cell) :
  rank_message c1 v t <> outcome_message c2 x.
Proof.
  unfold rank_message, outcome_message. intro H.
  apply (f_equal chars) in H.
  rewrite !chars_app in H.
  apply (f_equal (@rev ascii)) in H.
  rewrite !rev_app_distr in H. simpl in H. discriminate.
Qed.

Lemma exceeds_iff (q : Q) (t : Z) :
  exceeds q t = true <-> (inject_Z t < q)%Q.
Proof.
  unfold exceeds. rewrite negb_true_iff.
  destruct (Qle_bool q (inject_Z t)) eqn:H.
  - apply Qle_bool_iff in H. split; [discriminate |].
    intro Hlt. exfalso. now apply (Qlt_not_le _ _ Hlt).
  - split; [intros _ | reflexivity].
    apply Qnot_le_lt. intro Hle. apply Qle_bool_iff in Hle. congruence.
Qed.

(** ** The rule engine *)

Section RuleEngineFacts.

Variable float_ok : string -> bool.

(** What one column can add to [invalid_values]. *)
Lemma check_value_invalid pcts ranks threshold col value m :
  In m (snd (check_value float_ok pcts ranks threshold col value)) ->
  (exists q, as_number value = Some q /\ (inject_Z threshold < q)%Q /\
             m = rank_message col value threshold /\
             str_in col pcts = false /\ str_in col ranks = true) \/
  m = outcome_message col value.
Proof.
  unfold check_value.
  destruct (is_missing value); [intros [] |].
  destruct (str_in col pcts) eqn:Hp; [intros [] |].
  destruct (str_in col ranks) eqn:Hr.
  - destruct (as_number value) as [q |] eqn:Hq.
    + destruct (exceeds q threshold) eqn:Hn; simpl; [| intros []].
      intros [<- | []]. left. exists q. repeat split; auto.
      now apply exceeds_iff.
    + destruct (andb _ _); [| intros []].
      destruct (float_ok _); simpl; [intros [] |].
      intros [<- | []]. now right.
  - destruct (andb _ _); [| intros []].
    destruct (float_ok _); simpl; [intros [] |].
    intros [<- | []]. now right.
Qed.

(** What one column adds to [missing_values]. *)
Lemma check_value_missing pcts ranks threshold col value :
  fst (check_value float_ok pcts ranks threshold col value)
  = if is_missing value then [col] else [].
Proof.
  unfold check_value.
  destruct (is_missing value); [reflexivity |].
  destruct (str_in col pcts); [reflexivity |].
  destruct (if str_in col ranks then as_number value else None).
  - now destruct (exceeds _ _).
  - destruct (andb _ _); [| reflexivity]. now destruct (float_ok _).
Qed.

(** A number in a rank column that is not a percentage column. *)
Lemma check_value_rank pcts ranks threshold col value q :
  str_in col pcts = false -> str_in col ranks = true ->
  as_number value = Some q ->
  snd (check_value float_ok pcts ranks threshold col value)
  = if exceeds q threshold then [rank_message col value threshold] else [].
Proof.
  intros Hp Hr Hq. unfold check_value.
  assert (Hm : is_missing value = false)
    by (destruct value; try discriminate; reflexivity).
  rewrite Hm, Hp, Hr, Hq. now destruct (exceeds q threshold).
Qed.

Lemma check_columns_cons pcts ranks threshold cols cells col todo :
  check_columns float_ok pcts ranks threshold cols cells (col :: todo)
  = (fst (match row_get cols cells col with
          | Some value => check_value float_ok pcts ranks threshold col value
          | None => ([], [])
          end)
       ++ fst (check_columns float_ok pcts ranks threshold cols cells todo),
     snd (match row_get cols cells col with
          | Some value => check_value float_ok pcts ranks threshold col value
          | None => ([], [])
          end)
       ++ snd (check_columns float_ok pcts ranks threshold cols cells todo)).
Proof.
  simpl.
  destruct (match row_get cols cells col with
            | Some value => _ | None => _ end) as [ms ivs].
  now destruct (check_columns _ _ _ _ _ _ todo).
Qed.

(** The findings of a row are those of its validated columns. *)
Lemma check_columns_invalid pcts ranks threshold cols cells todo m :
  In m (snd (check_columns float_ok pcts ranks threshold cols cells todo))
  <-> exists col value,
        In col todo /\ row_get cols cells col = Some value /\
        In m (snd (check_value float_ok pcts ranks threshold col value)).
Proof.
  induction todo as [| c todo IH].
  - simpl. split; [intros [] | intros [? [? [[] _]]]].
  - rewrite check_columns_cons. simpl snd. rewrite in_app_iff, IH.
    split.
    + intros [H | [col [value [Hin [Hget Hm]]]]].
      * destruct (row_get cols cells c) as [value |] eqn:Hget;
          [| destruct H].
        exists c, value. repeat split; auto. now left.
      * exists col, value. repeat split; auto. now right.
    + intros [col [value [[-> | Hin] [Hget Hm]]]].
      * left. now rewrite Hget.
      * right. now exists col, value.
Qed.

(** The missing columns of a row, in column order. *)
Lemma check_columns_missing pcts ranks threshold cols cells todo :
  fst (check_columns float_ok pcts ranks threshold cols cells todo)
  = filter (fun col => match row_get cols cells col with
                       | Some value => is_missing value
                       | None => false
                       end) todo.
Proof.
  induction todo as [| c todo IH]; [reflexivity |].
  rewrite check_columns_cons. simpl fst. rewrite IH. simpl filter.
  destruct (row_get cols cells c) as [value |]; [| reflexivity].
  rewrite check_value_missing. now destruct (is_missing value).
Qed.

(** The verdict of a row the frequency test lets through. *)
Lemma validate_row_checked cfg t idx cells :
  snd (frequency_check t cells) = true ->
  let found :=
    check_columns float_ok (percentage_columns cfg t) (rank_columns cfg t)
                  (rank_threshold cfg) (columns t) cells
                  (validation_columns cfg t) in
  let r := validate_row float_ok cfg t idx cells in
  missing_columns r = fst found /\ invalid_values r = snd found /\
  status r = match fst found, snd found with
             | [], [] => valid
             | [], _ => invalid
             | _, _ => missing
             end /\
  details r = match fst found, snd found with
              | [], [] => "All validations passed"
              | [], ivs => join "; " ivs
              | ms, ivs =>
                  join "; " (("Missing values in: " ++ join ", " ms)%string
                               :: ivs)
              end.
Proof.
  intros Hf found r. subst r found. unfold validate_row.
  destruct (frequency_check t cells) as [fv sv]. simpl in Hf. subst sv.
  destruct (check_columns _ _ _ _ _ _ _) as [ms ivs]. simpl.
  destruct ms, ivs; simpl; repeat split; reflexivity.
Qed.

(** The verdict of a row the frequency test stops. *)
Lemma validate_row_skipped cfg t idx cells fv :
  frequency_check t cells = (Some fv, false) ->
  let r := validate_row float_ok cfg t idx cells in
  status r = skipped /\
  details r = ("Skipped due to frequency: " ++ str_cell fv)%string /\
  missing_columns r = [] /\ invalid_values r = [] /\
  frequency_info r = Some fv.
Proof.
  intros Hf r. subst r. unfold validate_row. rewrite Hf. simpl.
  repeat split; reflexivity.
Qed.

Lemma validation_column_kinds cfg t col :
  In col (validation_columns cfg t) ->
  str_in col (percentage_columns cfg t) = is_percentage_name col /\
  str_in col (rank_columns cfg t) = is_rank_name col.
Proof.
  intro Hin. unfold percentage_columns, rank_columns. split.
  - destruct (is_percentage_name col) eqn:H.
    + apply str_in_In, filter_In. auto.
    + apply str_in_false. rewrite filter_In. intros [_ H']. congruence.
  - destruct (is_rank_name col) eqn:H.
    + apply str_in_In, filter_In. auto.
    + apply str_in_false. rewrite filter_In. intros [_ H']. congruence.
Qed.

End RuleEngineFacts.

(** ** Claims on the rule engine *)

(** C6 (as amended). In a row that is not skipped by frequency, for a
    validated column whose name contains "rank" and is not also a
    percentage column (no "%" and no "percent" in its name), holding a
    value the code takes for a number (a Python int or a float; the
    integers of a frame whose columns are all integer reach the test as
    [numpy.int64] and are left aside): the findings of the row include
    ["<column>: <str(value)> exceeds rank threshold (<threshold>)"] if
    and only if the value is greater than [rank_threshold]; so a value
    equal to the threshold gives no finding, and a row with no missing
    column and no finding is [valid]. *)
Theorem rank_finding_iff_exceeds
        (float_ok : string -> bool) (cfg : ValidationConfig) (t : Table)
        (idx : nat) (cells : list Cell) (col : string) (value : Cell)
        (q : Q) :
  snd (frequency_check t cells) = true ->
  In col (validation_columns cfg t) ->
  is_rank_name col = true ->
  is_percentage_name col = false ->
  row_get (columns t) cells col = Some value ->
  as_number value = Some q ->
  (In (rank_message col value (rank_threshold cfg))
      (invalid_values (validate_row float_ok cfg t idx cells))
   <-> (inject_Z (rank_threshold cfg) < q)%Q) /\
  (missing_columns (validate_row float_ok cfg t idx cells) = [] ->
   invalid_values (validate_row float_ok cfg t idx cells) = [] ->
   status (validate_row float_ok cfg t idx cells) = valid).
Proof.
  intros Hf Hin Hrank Hpct Hget Hq.
  destruct (validate_row_checked float_ok cfg t idx cells Hf)
    as [Hms [Hivs [Hst _]]].
  destruct (validation_column_kinds cfg t col Hin) as [Hp Hr].
  rewrite Hpct in Hp. rewrite Hrank in Hr.
  split.
  - rewrite Hivs, check_columns_invalid. split.
    + intros [col' [value' [_ [Hget' Hm]]]].
      apply check_value_invalid in Hm.
      destruct Hm as [[q' [Hq' [Hn [Hm _]]]] | Hm].
      * pose proof (rank_message_inj _ _ _ _ _ _ _ Hq Hq' Hm) as <-.
        rewrite Hget in Hget'. injection Hget' as <-.
        rewrite Hq in Hq'. injection Hq' as <-. exact Hn.
      * now apply rank_message_not_outcome in Hm.
    + intro Hv. exists col, value. repeat split; auto.
      rewrite (check_value_rank float_ok _ _ _ _ _ q) by assumption.
      replace (exceeds q (rank_threshold cfg)) with true
        by (symmetry; now apply exceeds_iff).
      now left.
  - intros H1 H2. rewrite Hst. rewrite <- Hms, <- Hivs, H1, H2. reflexivity.
Qed.

(** C7. For a row the frequency test does not skip: the missing columns
    of the verdict are the validated columns whose value is missing; if
    there is one the status is [missing], and the invalid findings still
    follow the missing-values line in the details and fill
    [invalid_values]; with no missing column and some finding the status
    is [invalid]; otherwise it is [valid]. *)
Theorem verdict_precedence
        (float_ok : string -> bool) (cfg : ValidationConfig) (t : Table)
        (idx : nat) (cells : list Cell) :
  snd (frequency_check t cells) = true ->
  let r := validate_row float_ok cfg t idx cells in
  (forall col,
      In col (missing_columns r) <->
      In col (validation_columns cfg t) /\
      exists value, row_get (columns t) cells col = Some value /\
                    is_missing value = true) /\
  (forall m,
      In m (invalid_values r) <->
      exists col value,
        In col (validation_columns cfg t) /\
        row_get (columns t) cells col = Some value /\
        In m (snd (check_value float_ok (percentage_columns cfg t)
                               (rank_columns cfg t) (rank_threshold cfg)
                               col value))) /\
  (missing_columns r <> [] ->
   status r = missing /\
   details r = join "; " (("Missing values in: "
                             ++ join ", " (missing_columns r))%string
                            :: invalid_values r)) /\
  (missing_columns r = [] -> invalid_values r <> [] ->
   status r = invalid /\ details r = join "; " (invalid_values r)) /\
  (missing_columns r = [] -> invalid_values r = [] ->
   status r = valid /\ details r = "All validations passed").
Proof.
  intros Hf r. subst r.
  destruct (validate_row_checked float_ok cfg t idx cells Hf)
    as [Hms [Hivs [Hst Hde]]].
  rewrite Hst, Hde, Hms, Hivs. clear Hst Hde Hms Hivs.
  split; [| split; [| split; [| split]]].
  - intro col. rewrite check_columns_missing, filter_In.
    split.
    + intros [Hin Hm]. split; [assumption |].
      destruct (row_get (columns t) cells col) as [value |];
        [| discriminate].
      now exists value.
    + intros [Hin [value [Hget Hm]]]. split; [assumption |].
      now rewrite Hget.
  - intro m. apply check_columns_invalid.
  - destruct (fst _) as [| m ms]; [intro H; now elim H |].
    intros _. now split.
  - intros ->. destruct (snd (check_columns _ _ _ _ _ _ _));
      [intro H; now elim H |].
    intros _. now split.
  - intros -> ->. now split.
Qed.

(** C8. In a table with a frequency column, a row whose frequency value,
    lower-cased, is one of the skip keywords ("quarterly", "half-yearly",
    "half_yearly") gets the status [skipped] and the detail
    ["Skipped due to frequency: <value>"]; no check runs on it, whatever
    its other cells hold: [missing_columns] and [invalid_values] are
    empty. *)
Theorem frequency_keyword_skips_row
        (float_ok : string -> bool) (cfg : ValidationConfig) (t : Table)
        (idx : nat) (cells : list Cell) (fc : string) (fv : Cell) :
  freq_col t = Some fc ->
  row_get (columns t) cells fc = Some fv ->
  str_in (lower (str_cell fv)) frequency_skip_keywords = true ->
  let r := validate_row float_ok cfg t idx cells in
  status r = skipped /\
  details r = ("Skipped due to frequency: " ++ str_cell fv)%string /\
  missing_columns r = [] /\ invalid_values r = [] /\
  frequency_info r = Some fv.
Proof.
  intros Hfc Hget Hkw.
  apply validate_row_skipped.
  unfold frequency_check. rewrite Hfc.
  assert (Hne : String.eqb fc "" = false).
  { apply String.eqb_neq. intros ->.
    unfold freq_col in Hfc. apply find_some in Hfc.
    destruct Hfc as [_ Hfc]. discriminate. }
  rewrite Hne. simpl negb. cbv iota. rewrite Hget, Hkw.
  now rewrite (keyword_cell_truthy fv Hkw).
Qed.

(** ** Table reports *)

Lemma status_is_valid (r : RowVerdict) :
  status_is "valid" r = is_status_valid r.
Proof. unfold status_is, is_status_valid. now destruct (status r). Qed.

Lemma status_among_errors (r : RowVerdict) :
  status_among ["error"; "invalid"] r = is_invalid r.
Proof. unfold status_among, is_invalid. now destruct (status r). Qed.

Lemma is_status_valid_iff (r : RowVerdict) :
  is_status_valid r = true <-> status r = valid.
Proof.
  unfold is_status_valid. destruct (status r); split; congruence.
Qed.

Section ReportFacts.

Variable float_ok : string -> bool.

Lemma validate_rows_length cfg t idx rs :
  length (validate_rows float_ok cfg t idx rs) = length rs.
Proof.
  revert idx. induction rs as [| cells rs IH]; intro idx; simpl.
  - reflexivity.
  - now rewrite IH.
Qed.

(** The verdicts carry the 1-based positions of their rows. *)
Lemma validate_rows_indices cfg t idx rs :
  map row_index (validate_rows float_ok cfg t idx rs)
  = seq (idx + 1) (length rs).
Proof.
  revert idx. induction rs as [| cells rs IH]; intro idx; simpl.
  - reflexivity.
  - rewrite IH. replace (S idx + 1)%nat with (S (idx + 1)) by lia.
    f_equal. unfold validate_row.
    destruct (frequency_check t cells) as [fv [|]];
      [destruct (check_columns _ _ _ _ _ _ _) |]; reflexivity.
Qed.

Lemma validate_rows_In cfg t idx rs r :
  In r (validate_rows float_ok cfg t idx rs) ->
  exists i cells, In cells rs /\ r = validate_row float_ok cfg t i cells.
Proof.
  revert idx. induction rs as [| cells rs IH]; intro idx; simpl.
  - intros [].
  - intros [<- | H].
    + exists idx, cells. auto.
    + destruct (IH _ H) as [i [c [Hc Hr]]]. exists i, c. auto.
Qed.

(** The errors of a report, verdict by verdict. *)
Lemma report_errors cfg sheet (ld : Loaded) :
  errors (validate_spreadsheet float_ok cfg ld sheet)
  = match ld with
    | Parsed t =>
        map RowError
            (filter is_invalid (validate_rows float_ok cfg t 0 (rows t)))
    | Unreadable message => [ValidationError message]
    end.
Proof.
  destruct ld as [t | message]; simpl; [| reflexivity].
  f_equal. apply filter_ext. intro r. apply status_among_errors.
Qed.

(** A report that is valid has no error. *)
Lemma valid_report_no_error cfg sheet (ld : Loaded) :
  is_valid (validate_spreadsheet float_ok cfg ld sheet) = true ->
  errors (validate_spreadsheet float_ok cfg ld sheet) = [].
Proof.
  rewrite report_errors. destruct ld as [t | message]; simpl;
    [| discriminate].
  generalize (validate_rows float_ok cfg t 0 (rows t)).
  intros rs. induction rs as [| r rs IH]; simpl; [reflexivity |].
  rewrite andb_true_iff. intros [Hr Hrs].
  rewrite status_is_valid in Hr. unfold is_invalid.
  unfold is_status_valid in Hr.
  destruct (status r); try discriminate. now apply IH.
Qed.

End ReportFacts.

(** The report of a sheet that could not be read has no row verdict and
    is invalid. *)
Lemma unread_sheet_invalid (float_ok : string -> bool)
      (cfg : ValidationConfig) (message : string) (sheet : option string) :
  let report :=
    validate_spreadsheet float_ok cfg (Unreadable message) sheet in
  is_valid report = false /\ product_issue_results report = None /\
  errors report = [ValidationError message].
Proof. repeat split; reflexivity. Qed.


(** ** The deadline scheduler *)

Lemma geb_ge (a b : Z) : (a >=? b) = true <-> a >= b.
Proof. rewrite Z.geb_le. lia. Qed.

Lemma existsb_eqb_In (x : Z) (l : list Z) :
  existsb (Z.eqb x) l = true <-> In x l.
Proof.
  rewrite existsb_exists. split.
  - intros [y [Hy Heq]]. apply Z.eqb_eq in Heq. now subst.
  - intro H. exists x. split; [assumption | apply Z.eqb_refl].
Qed.

(** No branch fires for a schedule without window, and [int] is not
    reached. *)
Lemma schedule_branch_no_window (now : Date) (s : Schedule) :
  no_window s -> schedule_branch now s = Ok None.
Proof.
  unfold no_window, unrecognized, schedule_branch.
  intros [[H1 [H2 H3]] | [[Hf Hm] | [Hf Hm]]].
  - destruct (frequency s) as [f |]; [| reflexivity].
    destruct (String.eqb_spec f "monthly") as [-> | _]; [congruence |].
    destruct (String.eqb_spec f "bi-annual") as [-> | _]; [congruence |].
    destruct (String.eqb_spec f "annual") as [-> | _]; [congruence |].
    reflexivity.
  - rewrite Hf, Hm. reflexivity.
  - rewrite Hf, Hm. reflexivity.
Qed.

(** With a [deadline_day], the test returns. *)
Lemma schedule_branch_returns (now : Date) (s : Schedule) :
  day_present s -> exists b, schedule_branch now s = Ok b.
Proof.
  intros [H | H].
  - exists None. apply schedule_branch_no_window. now left.
  - unfold schedule_branch.
    destruct (deadline_day s) as [d |]; [| congruence]. simpl.
    repeat match goal with
           | |- context [if ?c then _ else _] => destruct c
           end; eauto.
Qed.

(** On a well-formed schedule the branch that fires is the window of
    the specification. *)
Lemma schedule_branch_due (now : Date) (s : Schedule) :
  well_formed s ->
  exists b, schedule_branch now s = Ok b /\
            (b <> None <-> due_by_spec now s).
Proof.
  unfold well_formed, due_by_spec, schedule_branch.
  intros [Hd [Hf | [[Hf Hm] | [Hf Hm]]]];
    destruct (deadline_day s) as [d |]; try congruence; clear Hd;
    rewrite Hf; simpl.
  - destruct (day now >=? d - 7) eqn:Hday; eexists; (split; [reflexivity |]).
    + apply geb_ge in Hday. split; [intros _ | congruence].
      left. split; [reflexivity |]. now exists d.
    + split; [congruence |].
      intros [[_ [d' [Hd' Hge]]] | [[H _] | [H _]]]; try discriminate.
      injection Hd' as <-. apply geb_ge in Hge. congruence.
  - destruct (deadline_months s) as [months |]; [| congruence]. clear Hm.
    destruct (existsb (Z.eqb (month now)) months) eqn:Hin.
    + apply existsb_eqb_In in Hin.
      destruct (day now >=? d - 7) eqn:Hday; eexists;
        (split; [reflexivity |]).
      * apply geb_ge in Hday. split; [intros _ | congruence].
        right. left. split; [reflexivity |]. exists months, d. auto.
      * split; [congruence |].
        intros [[H _] | [[_ [ms [d' [_ [Hd' [_ Hge]]]]]] | [H _]]];
          try discriminate.
        injection Hd' as <-. apply geb_ge in Hge. congruence.
    + eexists. split; [reflexivity |]. split; [congruence |].
      intros [[H _] | [[_ [ms [d' [Hms [_ [Hmem _]]]]]] | [H _]]];
        try discriminate.
      injection Hms as <-. apply existsb_eqb_In in Hmem. congruence.
  - destruct (deadline_month s) as [m |]; [| congruence]. clear Hm.
    destruct (Z.eqb_spec (month now) m) as [Heq | Hneq].
    + destruct (day now >=? d - 28) eqn:Hday; eexists;
        (split; [reflexivity |]).
      * apply geb_ge in Hday. split; [intros _ | congruence].
        right. right. split; [reflexivity |]. exists m, d. auto.
      * split; [congruence |].
        intros [[H _] | [[H _] | [_ [m' [d' [_ [Hd' [_ Hge]]]]]]]];
          try discriminate.
        injection Hd' as <-. apply geb_ge in Hge. congruence.
    + eexists. split; [reflexivity |]. split; [congruence |].
      intros [[H _] | [[H _] | [_ [m' [d' [Hm' [_ [Heq _]]]]]]]];
        try discriminate.
      injection Hm' as <-. congruence.
Qed.

(** The loop ignores a schedule whose test returns [None]. *)
Lemma should_send_periodic_skip (now : Date)
      (before after : list (string * Schedule)) (product : string)
      (s : Schedule) (acc : bool) :
  schedule_branch now s = Ok None ->
  should_send_periodic now (before ++ (product, s) :: after) acc
  = should_send_periodic now (before ++ after) acc.
Proof.
  intro Hs. revert acc.
  induction before as [| [p s'] before IH]; intro acc; simpl.
  - now rewrite Hs.
  - destruct (schedule_branch now s') as [[tag |] | e]; auto.
Qed.

Lemma should_send_periodic_returns (now : Date)
      (sched : list (string * Schedule)) (acc : bool) :
  Forall (fun ps => day_present (snd ps)) sched ->
  exists b, should_send_periodic now sched acc = Ok b.
Proof.
  intro H. revert acc.
  induction H as [| [p s] sched Hs _ IH]; intro acc; simpl.
  - now exists acc.
  - destruct (schedule_branch_returns now s Hs) as [[tag |] ->]; apply IH.
Qed.

Lemma should_send_periodic_due (now : Date)
      (sched : list (string * Schedule)) (acc : bool) :
  Forall (fun ps => well_formed (snd ps)) sched ->
  exists b, should_send_periodic now sched acc = Ok b /\
            (b = true <->
             acc = true \/ exists ps, In ps sched /\ due_by_spec now (snd ps)).
Proof.
  intro H. revert acc.
  induction H as [| [p s] sched Hs _ IH]; intro acc; simpl.
  - exists acc. split; [reflexivity |]. split; [auto |].
    intros [H | [ps [[] _]]]. exact H.
  - destruct (schedule_branch_due now s Hs) as [b [-> Hb]].
    destruct b as [tag |].
    + destruct (IH true) as [b' [-> Hb']]. exists b'.
      split; [reflexivity |]. rewrite Hb'. split.
      * intros _. right. exists (p, s). split; [now left |].
        apply Hb. discriminate.
      * intros _. now left.
    + destruct (IH acc) as [b' [-> Hb']]. exists b'.
      split; [reflexivity |]. rewrite Hb'. split.
      * intros [Ha | [ps [Hin Hdue]]]; [now left |].
        right. exists ps. split; [now right | assumption].
      * intros [Ha | [ps [[<- | Hin] Hdue]]]; [now left | |].
        -- apply Hb in Hdue. congruence.
        -- right. now exists ps.
Qed.

(** ** The workflow *)

Section WorkflowFacts.

Variable float_ok : string -> bool.
Variable transport : NotifierCall -> bool.
Variable product_in_frame : string -> Table -> bool.
Variable cfg : ValidationConfig.
Variable product_schedule : list (string * Schedule).
Variable now : Date.

(** [run] on one sheet: one report, one notifier call. *)
Lemma run_one_call (sheet : string) (ld : Loaded)
      (log : list NotifierCall) :
  run float_ok transport product_in_frame cfg product_schedule now
      ld (Some sheet) log
  = (sheet_result float_ok transport cfg (sheet, ld),
     log ++ [sheet_call float_ok cfg (sheet, ld)]).
Proof.
  unfold run, bind, ret, summary_dataframe, sheet_result, sheet_call,
    sheet_report,
    send_missing_data_notification, send_completion_notification.
  simpl.
  destruct (is_valid (validate_spreadsheet float_ok cfg ld (Some sheet)));
    reflexivity.
Qed.

(** What a sheet adds to the merged error list. *)
Lemma sheet_errors (entry : string * Loaded) :
  tag_errors (fst entry) (errors (sheet_report float_ok cfg entry))
  = merged_errors float_ok cfg [entry].
Proof.
  unfold merged_errors, sheet_report, tag_errors. simpl.
  rewrite report_errors, app_nil_r.
  destruct (snd entry) as [t | message]; [| reflexivity].
  now rewrite map_map.
Qed.

Lemma merged_errors_cons (entry : string * Loaded) sheets :
  merged_errors float_ok cfg (entry :: sheets)
  = merged_errors float_ok cfg [entry] ++ merged_errors float_ok cfg sheets.
Proof. unfold merged_errors. simpl. now rewrite app_nil_r. Qed.

(** The sheet loop is never interrupted; it runs every sheet once. *)
Lemma sheet_loop_end (sheets : list (string * Loaded)) (st : LoopState)
      (log : list NotifierCall) :
  sheet_loop float_ok transport product_in_frame cfg product_schedule now
             sheets st log
  = (({| ls_results :=
           ls_results st
             ++ ls_results (loop_end float_ok transport cfg sheets);
         ls_all_errors :=
           ls_all_errors st
             ++ ls_all_errors (loop_end float_ok transport cfg sheets);
         ls_all_valid :=
           andb (ls_all_valid st)
                (ls_all_valid (loop_end float_ok transport cfg sheets)) |},
      None),
     log ++ map (sheet_call float_ok cfg) sheets).
Proof.
  revert st log.
  induction sheets as [| [sheet ld] sheets IH]; intros st log.
  - simpl. unfold ret. rewrite !app_nil_r, andb_true_r.
    now destruct st.
  - cbn [sheet_loop]. unfold bind at 1.
    rewrite (run_one_call sheet ld log).
    cbn [wr_validation_result sheet_result].
    destruct (is_valid (sheet_report float_ok cfg (sheet, ld))) eqn:Hv;
      cbn [negb]; cbv iota; rewrite IH; cbn [ls_results ls_all_errors
                                               ls_all_valid loop_end
                                               map forallb fst];
      rewrite Hv, <- !app_assoc.
    + assert (He : errors (sheet_report float_ok cfg (sheet, ld)) = [])
        by (apply valid_report_no_error; exact Hv).
      rewrite merged_errors_cons, <- sheet_errors, He.
      reflexivity.
    + rewrite merged_errors_cons, <- sheet_errors.
      rewrite andb_false_r. reflexivity.
Qed.

(** [run_all_sheets] on a workbook that opens, started with no call
    made: the sheets are run, then the schedules are tested, then one
    aggregated notification is sent unless the schedule test raised. *)
Lemma run_all_sheets_unfold (file_path : string)
      (sheets : list (string * Loaded)) :
  run_all_sheets float_ok transport product_in_frame file_path cfg
                 product_schedule now (Sheets sheets) []
  = let st := loop_end float_ok transport cfg sheets in
    let calls := map (sheet_call float_ok cfg) sheets in
    match should_send_periodic now product_schedule false with
    | Raised e => (failed_run (ls_results st) e, calls)
    | Ok periodic =>
        if orb (negb (ls_all_valid st)) periodic then
          let aggregated :=
            aggregate (map fst sheets) st periodic
                      (Some (issues_message file_path)) in
          ({| all_sheets_results := ls_results st;
              aggregated_result := Some aggregated;
              notification_sent :=
                transport (MissingData (AggregateReport aggregated));
              notification_type := Some "missing_data_aggregated";
              workflow_status := "completed_with_issues";
              error := None |},
           calls ++ [MissingData (AggregateReport aggregated)])
        else
          let aggregated :=
            aggregate (map fst sheets) st periodic
                      (Some (clean_message file_path)) in
          ({| all_sheets_results := ls_results st;
              aggregated_result := Some aggregated;
              notification_sent :=
                transport (Completion (AggregateReport aggregated));
              notification_type := Some "completion_aggregated";
              workflow_status := "completed_success";
              error := None |},
           calls ++ [Completion (AggregateReport aggregated)])
    end.
Proof.
  unfold run_all_sheets, bind. rewrite sheet_loop_end.
  cbn [loop_start ls_results ls_all_errors ls_all_valid app andb].
  replace {| ls_results := ls_results (loop_end float_ok transport cfg sheets);
             ls_all_errors :=
               ls_all_errors (loop_end float_ok transport cfg sheets);
             ls_all_valid :=
               ls_all_valid (loop_end float_ok transport cfg sheets) |}
    with (loop_end float_ok transport cfg sheets) by reflexivity.
  destruct (should_send_periodic now product_schedule false)
    as [periodic | e]; [| reflexivity].
  cbv zeta.
  destruct (orb _ periodic); reflexivity.
Qed.

End WorkflowFacts.

(** ** Claims on the scheduler *)

(** C4 (as amended). Whatever the date: a schedule with an unrecognized
    frequency tag, a bi-annual one without [deadline_months] or an annual
    one without [deadline_month] is not due, and the loop over the
    schedules goes on as if it were not there; and the loop returns,
    without raising, on every set of schedules in which each schedule
    with a recognized tag has a [deadline_day]. *)
Theorem schedule_without_window_not_due (now : Date) :
  (forall s, no_window s -> schedule_branch now s = Ok None) /\
  (forall before after product s acc,
      no_window s ->
      should_send_periodic now (before ++ (product, s) :: after) acc
      = should_send_periodic now (before ++ after) acc) /\
  (forall sched,
      Forall (fun ps => day_present (snd ps)) sched ->
      exists periodic, should_send_periodic now sched false = Ok periodic).
Proof.
  split; [| split].
  - intros s Hs. now apply schedule_branch_no_window.
  - intros before after product s acc Hs.
    apply should_send_periodic_skip. now apply schedule_branch_no_window.
  - intros sched H. now apply should_send_periodic_returns.
Qed.

(** C5. On schedules with well-formed parameters the periodic trigger is
    the disjunction of the windows: monthly, [now.day >= deadline_day - 7];
    bi-annual, [now.month] among [deadline_months] and
    [now.day >= deadline_day - 7]; annual, [now.month = deadline_month]
    and [now.day >= deadline_day - 28]. It is the flag the aggregate
    report carries. *)
Theorem periodic_trigger_is_disjunction
        (now : Date) (sched : list (string * Schedule)) :
  Forall (fun ps => well_formed (snd ps)) sched ->
  exists periodic,
    should_send_periodic now sched false = Ok periodic /\
    (periodic = true <->
     exists ps, In ps sched /\ due_by_spec now (snd ps)) /\
    (forall float_ok transport product_in_frame file_path cfg sheets,
        option_map agg_periodic_trigger
          (aggregated_result
             (result_of (run_all_sheets float_ok transport product_in_frame
                                        file_path cfg sched now
                                        (Sheets sheets))))
        = Some periodic).
Proof.
  intro H.
  destruct (should_send_periodic_due now sched false H) as [b [Hb Hiff]].
  exists b. split; [exact Hb |]. split.
  - rewrite Hiff. split.
    + intros [Habs | Hex]; [discriminate | exact Hex].
    + intro Hex. now right.
  - intros. unfold result_of. rewrite run_all_sheets_unfold.
    cbv zeta. rewrite Hb. now destruct (orb _ b).
Qed.

(** ** Claims on the orchestrator *)

(** The number of notifier calls of a run: one per sheet, and the
    aggregated one unless the schedule test raised. *)
Lemma notifier_calls_per_run
      (float_ok : string -> bool) (transport : NotifierCall -> bool)
      (product_in_frame : string -> Table -> bool) (file_path : string)
      (cfg : ValidationConfig) (sched : list (string * Schedule))
      (now : Date) (sheets : list (string * Loaded)) :
  length (calls_of (run_all_sheets float_ok transport product_in_frame
                                   file_path cfg sched now (Sheets sheets)))
  = (length sheets
     + match should_send_periodic now sched false with
       | Ok _ => 1
       | Raised _ => 0
       end)%nat.
Proof.
  unfold calls_of. rewrite run_all_sheets_unfold. cbv zeta.
  destruct (should_send_periodic now sched false) as [periodic | e].
  - destruct (orb _ periodic); simpl snd;
      now rewrite length_app, length_map.
  - simpl snd. rewrite length_map. lia.
Qed.

(** C1 (the code sends more than one notification). A workbook with the
    single sheet [clean_table], no schedule: [run_all_sheets] calls the
    notifier twice, once from [run] for the sheet and once for the
    aggregate. *)
Theorem one_sheet_run_notifies_twice
        (float_ok : string -> bool) (transport : NotifierCall -> bool)
        (product_in_frame : string -> Table -> bool) :
  exists report aggregated,
    calls_of (run_all_sheets float_ok transport product_in_frame
                             "data/uploaded.xlsx" default_config []
                             march_25 (Sheets [("Sheet1", Parsed clean_table)]))
    = [Completion (SheetReport report);
       Completion (AggregateReport aggregated)].
Proof.
  eexists. eexists. unfold calls_of. rewrite run_all_sheets_unfold.
  reflexivity.
Qed.

(** C2 (as amended). When the schedule test returns, the merged error
    list of the aggregate report holds, for each sheet in processing
    order, the verdicts of status [invalid] of that sheet in row order
    (verdicts of status [missing] or [skipped] are not merged), or the
    synthetic entry of a sheet that could not be read; each entry carries
    its sheet; the verdicts of a sheet are numbered 1, 2, ... by row. *)
Theorem merged_errors_are_invalid_rows
        (float_ok : string -> bool) (transport : NotifierCall -> bool)
        (product_in_frame : string -> Table -> bool) (file_path : string)
        (cfg : ValidationConfig) (sched : list (string * Schedule))
        (now : Date) (sheets : list (string * Loaded)) (periodic : bool) :
  should_send_periodic now sched false = Ok periodic ->
  (exists aggregated,
      aggregated_result
        (result_of (run_all_sheets float_ok transport product_in_frame
                                   file_path cfg sched now (Sheets sheets)))
      = Some aggregated /\
      agg_errors aggregated = merged_errors float_ok cfg sheets) /\
  (forall t, map row_index (validate_rows float_ok cfg t 0 (rows t))
             = seq 1 (length (rows t))).
Proof.
  intro Hp. split.
  - unfold result_of. rewrite run_all_sheets_unfold. cbv zeta. rewrite Hp.
    destruct (orb _ periodic); eexists; split; reflexivity.
  - intro t. apply validate_rows_indices.
Qed.

(** C3 (as amended). When the schedule test returns, the decision has
    two outcomes: if a sheet is invalid or the periodic trigger is due,
    the missing-data notification is sent for the aggregate
    ([missing_data_aggregated], [completed_with_issues]); otherwise the
    completion notification ([completion_aggregated],
    [completed_success]). The aggregate records the trigger in
    [periodic_trigger]. *)
Theorem notification_decision_two_valued
        (float_ok : string -> bool) (transport : NotifierCall -> bool)
        (product_in_frame : string -> Table -> bool) (file_path : string)
        (cfg : ValidationConfig) (sched : list (string * Schedule))
        (now : Date) (sheets : list (string * Loaded)) (periodic : bool) :
  should_send_periodic now sched false = Ok periodic ->
  let all_valid :=
    forallb (fun e => is_valid (sheet_report float_ok cfg e)) sheets in
  let outcome :=
    run_all_sheets float_ok transport product_in_frame file_path cfg sched
                   now (Sheets sheets) in
  exists aggregated,
    aggregated_result (result_of outcome) = Some aggregated /\
    agg_is_valid aggregated = all_valid /\
    agg_periodic_trigger aggregated = periodic /\
    if orb (negb all_valid) periodic then
      notification_type (result_of outcome) = Some "missing_data_aggregated"
      /\ workflow_status (result_of outcome) = "completed_with_issues"
      /\ agg_message aggregated = Some (issues_message file_path)
      /\ calls_of outcome
         = map (sheet_call float_ok cfg) sheets
             ++ [MissingData (AggregateReport aggregated)]
    else
      notification_type (result_of outcome) = Some "completion_aggregated"
      /\ workflow_status (result_of outcome) = "completed_success"
      /\ agg_message aggregated = Some (clean_message file_path)
      /\ calls_of outcome
         = map (sheet_call float_ok cfg) sheets
             ++ [Completion (AggregateReport aggregated)].
Proof.
  intros Hp all_valid outcome. subst outcome.
  unfold result_of, calls_of. rewrite run_all_sheets_unfold. cbv zeta.
  rewrite Hp. cbn [ls_all_valid loop_end]. fold all_valid.
  destruct (orb (negb all_valid) periodic); eexists;
    repeat split; reflexivity.
Qed.

(** C9 (as amended). The report of a sheet that was read is valid
    exactly when every row verdict is [valid], and [error_rows] counts
    the others; a row skipped by frequency therefore makes the report
    invalid and counts as an error row. The report of a sheet that
    could not be read is invalid and has no row verdict and no summary.
    A run over a workbook with a sheet that has a skipped row sends the
    missing-data notification when the schedule test returns, and ends
    as [failed], without aggregate and without decision, when the
    schedule test raises. *)
Theorem report_valid_iff_all_rows_valid
        (float_ok : string -> bool) (cfg : ValidationConfig)
        (loaded : Loaded) (sheet : option string) :
  let report := validate_spreadsheet float_ok cfg loaded sheet in
  (is_valid report = true <->
   exists results,
     product_issue_results report = Some results /\
     forall r, In r results -> status r = valid) /\
  (forall message,
      loaded = Unreadable message ->
      is_valid report = false /\
      product_issue_results report = None /\
      summary report = None /\
      errors report = [ValidationError message]) /\
  (forall t,
      loaded = Parsed t ->
      exists results s,
        product_issue_results report = Some results /\
        summary report = Some s /\
        (is_valid report = true <->
         forall r, In r results -> status r = valid) /\
        error_rows s
        = length (filter (fun r => negb (is_status_valid r)) results) /\
        ((exists r, In r results /\ status r = skipped) ->
         is_valid report = false /\ (0 < error_rows s)%nat) /\
        (forall transport product_in_frame file_path sched now sheets name,
            (exists r, In r results /\ status r = skipped) ->
            In (name, Parsed t) sheets ->
            let outcome :=
              result_of (run_all_sheets float_ok transport product_in_frame
                                        file_path cfg sched now
                                        (Sheets sheets)) in
            match should_send_periodic now sched false with
            | Ok periodic =>
                option_map agg_is_valid (aggregated_result outcome)
                = Some false /\
                notification_type outcome = Some "missing_data_aggregated" /\
                workflow_status outcome = "completed_with_issues"
            | Raised e =>
                aggregated_result outcome = None /\
                notification_type outcome = None /\
                workflow_status outcome = "failed" /\
                error outcome = Some e
            end)).
Proof.
  intro report. subst report.
  assert (Hiff : forall results,
             forallb (status_is "valid") results = true <->
             forall r, In r results -> status r = valid).
  { intro results. rewrite forallb_forall. split; intros H r Hr.
    - apply is_status_valid_iff. rewrite <- status_is_valid. now apply H.
    - rewrite status_is_valid. apply is_status_valid_iff. now apply H. }
  split; [| split].
  - destruct loaded as [t | message]; simpl.
    + rewrite Hiff. split.
      * intro H. eexists. split; [reflexivity | exact H].
      * intros [results [Hr H]]. injection Hr as <-. exact H.
    + split; [discriminate |]. intros [results [Hr _]]. discriminate.
  - intros message ->. repeat split.
  - intros t ->.
    exists (validate_rows float_ok cfg t 0 (rows t)).
    eexists. split; [reflexivity |]. split; [reflexivity |].
    cbn [is_valid validate_spreadsheet error_rows summarise].
    set (results := validate_rows float_ok cfg t 0 (rows t)).
    assert (Hskip : (exists r, In r results /\ status r = skipped) ->
                    forallb (status_is "valid") results = false).
    { intros [r [Hr Hs]].
      apply not_true_is_false. intro Hv.
      rewrite Hiff in Hv. specialize (Hv r Hr). congruence. }
    split; [apply Hiff |]. split; [| split].
    + unfold count_where. f_equal. apply filter_ext. intro r.
      now rewrite status_is_valid.
    + intros Hex. split; [now apply Hskip |].
      destruct Hex as [r [Hr Hs]]. unfold count_where.
      assert (Hin : In r (filter (fun r => negb (status_is "valid" r))
                                 results)).
      { apply filter_In. split; [assumption |].
        unfold status_is. now rewrite Hs. }
      destruct (filter _ results); [destruct Hin | simpl; lia].
    + intros transport product_in_frame file_path sched now sheets name
             Hex Hin.
      unfold result_of. rewrite run_all_sheets_unfold. cbv zeta.
      destruct (should_send_periodic now sched false) as [periodic | e].
      * assert (Hall : forallb (fun e => is_valid (sheet_report float_ok cfg e))
                               sheets = false).
        { apply not_true_is_false. intro Hv.
          rewrite forallb_forall in Hv. specialize (Hv _ Hin).
          unfold sheet_report in Hv. simpl in Hv. fold results in Hv.
          rewrite (Hskip Hex) in Hv. discriminate. }
        cbn [ls_all_valid loop_end]. rewrite Hall. simpl.
        repeat split; try reflexivity. now rewrite Hall.
      * simpl. repeat split.
Qed.

(** ** The claims at sample inputs *)

(** C6 at the column "Rank" of [rank_percent_table], holding the Python
    int 7. *)
Lemma rank_finding_iff_exceeds_witness :
  (In (rank_message "Rank" (CNum 7) (rank_threshold default_config))
      (invalid_values
         (validate_row accept_all default_config rank_percent_table 0
                       [CStr "a"; CNum 7; CNum 7]))
   <-> (inject_Z (rank_threshold default_config) < inject_Z 7)%Q) /\
  (missing_columns
     (validate_row accept_all default_config rank_percent_table 0
                   [CStr "a"; CNum 7; CNum 7]) = [] ->
   invalid_values
     (validate_row accept_all default_config rank_percent_table 0
                   [CStr "a"; CNum 7; CNum 7]) = [] ->
   status
     (validate_row accept_all default_config rank_percent_table 0
                   [CStr "a"; CNum 7; CNum 7]) = valid).
Proof.
  apply (rank_finding_iff_exceeds accept_all default_config
           rank_percent_table 0 [CStr "a"; CNum 7; CNum 7] "Rank" (CNum 7)
           (inject_Z 7));
    try reflexivity.
  simpl. auto.
Defined.

(** Two values above the threshold 5, in validated rank columns of rows
    that are not skipped, and no finding for them. The first is the
    Python int 7 of the column "Rank %" of [rank_percent_table]: the
    column is a percentage column as well, and the percentage branch
    comes first. The second is the 7 of the column "Rank" of
    [integer_table]: in a frame whose columns are all integer the value
    is a numpy integer, which the rank branch does not take for a
    number; the row is [valid]. *)
Lemma rank_above_threshold_without_finding :
  (In "Rank %" (validation_columns default_config rank_percent_table) /\
   In "Rank %" (rank_columns default_config rank_percent_table) /\
   snd (frequency_check rank_percent_table [CStr "a"; CNum 7; CNum 7])
   = true /\
   row_get (columns rank_percent_table) [CStr "a"; CNum 7; CNum 7] "Rank %"
   = Some (CNum 7) /\
   7 > rank_threshold default_config /\
   ~ In (rank_message "Rank %" (CNum 7) (rank_threshold default_config))
        (invalid_values
           (validate_row accept_all default_config rank_percent_table 0
                         [CStr "a"; CNum 7; CNum 7]))) /\
  (In "Rank" (validation_columns default_config integer_table) /\
   In "Rank" (rank_columns default_config integer_table) /\
   is_percentage_name "Rank" = false /\
   snd (frequency_check integer_table [CNpInt 7; CNpInt 12]) = true /\
   row_get (columns integer_table) [CNpInt 7; CNpInt 12] "Rank"
   = Some (CNpInt 7) /\
   7 > rank_threshold default_config /\
   invalid_values
     (validate_row accept_all default_config integer_table 0
                   [CNpInt 7; CNpInt 12]) = [] /\
   status
     (validate_row accept_all default_config integer_table 0
                   [CNpInt 7; CNpInt 12]) = valid).
Proof.
  split.
  - repeat split; try reflexivity.
    + simpl. auto.
    + simpl. auto.
    + vm_compute. intros [H | []]. discriminate.
  - repeat split; try reflexivity; simpl; auto.
Qed.

(** C7 at the second row of [mixed_table]. *)
Lemma verdict_precedence_witness :
  status (validate_row accept_all default_config mixed_table 1
                       [CNull; CStr "Monthly"; CNum 3]) = missing.
Proof.
  apply (verdict_precedence accept_all default_config mixed_table 1
           [CNull; CStr "Monthly"; CNum 3]).
  - reflexivity.
  - discriminate.
Defined.

(** C8 at the third row of [mixed_table]. *)
Lemma frequency_keyword_skips_row_witness :
  status (validate_row accept_all default_config mixed_table 2
                       [CStr "c"; CStr "Quarterly"; CNum 9]) = skipped.
Proof.
  apply (frequency_keyword_skips_row accept_all default_config mixed_table 2
           [CStr "c"; CStr "Quarterly"; CNum 9] "Frequency"
           (CStr "Quarterly"));
    reflexivity.
Defined.


(** C9 at [skipped_table], in a workbook of two sheets. *)
Lemma report_valid_iff_all_rows_valid_witness :
  is_valid (validate_spreadsheet accept_all default_config
                                 (Parsed skipped_table) None) = false /\
  notification_type
    (result_of (run_all_sheets accept_all delivered no_product "book.xlsx"
                               default_config [] march_25
                               (Sheets [("A", Parsed clean_table);
                                        ("B", Parsed skipped_table)])))
  = Some "missing_data_aggregated".
Proof.
  destruct (report_valid_iff_all_rows_valid accept_all default_config
              (Parsed skipped_table) None) as [_ [_ Hread]].
  destruct (Hread skipped_table eq_refl)
    as [results [s [Hr [_ [_ [_ [Hskip Hrun]]]]]]].
  injection Hr as <-.
  assert (Hex : exists r,
             In r (validate_rows accept_all default_config skipped_table 0
                                 (rows skipped_table))
             /\ status r = skipped).
  { eexists. split; [left; reflexivity | reflexivity]. }
  split.
  - apply (Hskip Hex).
  - apply (Hrun delivered no_product "book.xlsx" [] march_25
                [("A", Parsed clean_table); ("B", Parsed skipped_table)]
                "B" Hex).
    right. left. reflexivity.
Defined.

(** Two reports and a run the claim does not cover. The report of a
    sheet that could not be read has no row verdict, so that every row
    verdict it has is [valid], and is invalid. And a run over a workbook
    whose one sheet, [skipped_table], holds only rows skipped by
    frequency, with a monthly schedule that has no [deadline_day]: the
    report of the sheet is invalid, [int(None)] raises in the schedule
    loop, and the run ends as [failed] with no aggregate and no
    notification type; its only notifier call is the one of the sheet. *)
Lemma invalid_report_and_failed_run :
  (let report :=
     validate_spreadsheet accept_all default_config
                          (Unreadable "Worksheet named 'A' not found")
                          (Some "A") in
   is_valid report = false /\
   product_issue_results report = None) /\
  (let report :=
     validate_spreadsheet accept_all default_config (Parsed skipped_table)
                          (Some "A") in
   let outcome :=
     run_all_sheets accept_all delivered no_product "book.xlsx"
                    default_config [("P", monthly None)] march_25
                    (Sheets [("A", Parsed skipped_table)]) in
   option_map (map status) (product_issue_results report)
   = Some [skipped; skipped] /\
   is_valid report = false /\
   workflow_status (result_of outcome) = "failed" /\
   error (result_of outcome) = Some int_of_none /\
   aggregated_result (result_of outcome) = None /\
   notification_type (result_of outcome) = None /\
   calls_of outcome = [MissingData (SheetReport report)]).
Proof. repeat split. Qed.

(** C2 at a workbook holding [mixed_table]: the merged list is the one
    invalid row. *)
Lemma merged_errors_are_invalid_rows_witness :
  (exists aggregated,
      aggregated_result
        (result_of (run_all_sheets accept_all delivered no_product
                                   "book.xlsx" default_config [] march_25
                                   (Sheets [("Sheet1", Parsed mixed_table)])))
      = Some aggregated /\
      agg_errors aggregated
      = merged_errors accept_all default_config
                      [("Sheet1", Parsed mixed_table)]) /\
  (forall t, map row_index (validate_rows accept_all default_config t 0
                                          (rows t))
             = seq 1 (length (rows t))).
Proof.
  apply (merged_errors_are_invalid_rows accept_all delivered no_product
           "book.xlsx" default_config [] march_25
           [("Sheet1", Parsed mixed_table)] false).
  reflexivity.
Defined.

(** The verdicts of [mixed_table] are valid, missing, skipped and
    invalid; of the three that are not valid, only the invalid one
    (row 4) reaches the merged error list of the run. *)
Lemma missing_and_skipped_not_merged :
  option_map (map (fun r => (row_index r, status r)))
    (product_issue_results
       (validate_spreadsheet accept_all default_config (Parsed mixed_table)
                             (Some "Sheet1")))
  = Some [(1%nat, valid); (2%nat, missing); (3%nat, skipped);
          (4%nat, invalid)] /\
  option_map
    (fun aggregated =>
       map (fun e => (te_sheet e,
                      match te_entry e with
                      | RowError r => Some (row_index r, status r)
                      | ValidationError _ => None
                      end))
           (agg_errors aggregated))
    (aggregated_result
       (result_of (run_all_sheets accept_all delivered no_product
                                  "book.xlsx" default_config [] march_25
                                  (Sheets [("Sheet1", Parsed mixed_table)]))))
  = Some [("Sheet1", Some (4%nat, invalid))].
Proof. split; reflexivity. Qed.

(** C3 at a valid workbook with no schedule: the completion branch. *)
Lemma notification_decision_two_valued_witness :
  exists aggregated,
    aggregated_result
      (result_of (run_all_sheets accept_all delivered no_product "book.xlsx"
                                 default_config [] march_25
                                 (Sheets [("Sheet1", Parsed clean_table)])))
    = Some aggregated /\
    agg_is_valid aggregated = true /\
    agg_periodic_trigger aggregated = false.
Proof.
  destruct (notification_decision_two_valued accept_all delivered no_product
              "book.xlsx" default_config [] march_25
              [("Sheet1", Parsed clean_table)] false eq_refl)
    as [aggregated [H1 [H2 [H3 _]]]].
  exists aggregated. repeat split; assumption.
Defined.

(** Every sheet valid and a monthly schedule due (day 25, deadline 28):
    the notification sent for the aggregate is the missing-data one, with
    the message of a file that has missing or invalid data, as when a
    sheet is invalid; there is no third outcome. *)
Lemma periodic_due_sends_missing_data :
  let outcome :=
    run_all_sheets accept_all delivered no_product "book.xlsx"
                   default_config [("P", monthly (Some 28))] march_25
                   (Sheets [("Sheet1", Parsed clean_table)]) in
  let invalid_outcome :=
    run_all_sheets accept_all delivered no_product "book.xlsx"
                   default_config [] march_25
                   (Sheets [("Sheet1", Parsed skipped_table)]) in
  option_map agg_is_valid (aggregated_result (result_of outcome))
  = Some true /\
  option_map agg_periodic_trigger (aggregated_result (result_of outcome))
  = Some true /\
  notification_type (result_of outcome) = Some "missing_data_aggregated" /\
  notification_type (result_of outcome)
  = notification_type (result_of invalid_outcome) /\
  option_map agg_message (aggregated_result (result_of outcome))
  = Some (Some "File 'book.xlsx' has missing/invalid data. Please check the attached summary.") /\
  (exists aggregated,
      last (calls_of outcome) (Completion (AggregateReport aggregated))
      = MissingData (AggregateReport aggregated)).
Proof.
  repeat split; try reflexivity.
  eexists. vm_compute. reflexivity.
Qed.

(** C4 at schedules without window, and at a set of schedules that all
    have a [deadline_day]. *)
Lemma schedule_without_window_not_due_witness :
  schedule_branch march_25 weekly = Ok None /\
  should_send_periodic march_25
    ([("A", bi_annual None (Some 28))] ++ ("B", weekly)
       :: [("C", monthly (Some 28))]) false
  = should_send_periodic march_25
      ([("A", bi_annual None (Some 28))] ++ [("C", monthly (Some 28))]) false /\
  exists periodic,
    should_send_periodic march_25
      [("A", weekly); ("B", annual None (Some 31)); ("C", monthly (Some 28))]
      false
    = Ok periodic.
Proof.
  destruct (schedule_without_window_not_due march_25) as [H1 [H2 H3]].
  assert (Hw : no_window weekly).
  { left. repeat split; discriminate. }
  split; [| split].
  - apply (H1 weekly Hw).
  - apply (H2 _ _ "B" weekly false Hw).
  - apply H3.
    apply Forall_cons; [left; repeat split; discriminate |].
    apply Forall_cons; [right; discriminate |].
    apply Forall_cons; [right; discriminate |].
    apply Forall_nil.
Defined.

(** A monthly schedule without [deadline_day]: [int(None)] raises, the
    due schedule after it is never tested, the run ends as failed with
    no aggregate and no aggregated notification. Without that schedule
    the trigger is due. *)
Lemma missing_deadline_day_raises :
  let sched := [("A", monthly None); ("B", monthly (Some 28))] in
  let outcome :=
    run_all_sheets accept_all delivered no_product "book.xlsx"
                   default_config sched march_25
                   (Sheets [("Sheet1", Parsed clean_table)]) in
  (exists message,
      should_send_periodic march_25 sched false
      = Raised (TypeError message)) /\
  should_send_periodic march_25 [("B", monthly (Some 28))] false = Ok true /\
  workflow_status (result_of outcome) = "failed" /\
  aggregated_result (result_of outcome) = None /\
  notification_sent (result_of outcome) = false /\
  length (calls_of outcome) = 1%nat.
Proof.
  repeat split; try reflexivity.
  eexists. reflexivity.
Qed.

(** C5 at one schedule of each kind on day 25 of March. *)
Lemma periodic_trigger_is_disjunction_witness :
  exists periodic,
    should_send_periodic march_25
      [("A", monthly (Some 40)); ("B", bi_annual (Some [6; 12]) (Some 30));
       ("C", annual (Some 3) (Some 31))] false
    = Ok periodic /\
    (periodic = true <->
     exists ps,
       In ps [("A", monthly (Some 40));
              ("B", bi_annual (Some [6; 12]) (Some 30));
              ("C", annual (Some 3) (Some 31))]
       /\ due_by_spec march_25 (snd ps)).
Proof.
  destruct (periodic_trigger_is_disjunction march_25
              [("A", monthly (Some 40));
               ("B", bi_annual (Some [6; 12]) (Some 30));
               ("C", annual (Some 3) (Some 31))])
    as [periodic [H1 [H2 _]]].
  - apply Forall_cons;
      [split; [discriminate | left; reflexivity] |].
    apply Forall_cons;
      [split; [discriminate
              | right; left; split; [reflexivity | discriminate]] |].
    apply Forall_cons;
      [split; [discriminate
              | right; right; split; [reflexivity | discriminate]] |].
    apply Forall_nil.
  - exists periodic. split; assumption.
Defined.

(** * Further properties of the code *)

(** ** The table report *)

Lemma forallb_no_counterexample (A : Type) (p : A -> bool) (l : list A) :
  forallb p l = true <-> length (filter (fun x => negb (p x)) l) = 0%nat.
Proof.
  induction l as [| x l IH]; simpl.
  - split; reflexivity.
  - destruct (p x); simpl.
    + exact IH.
    + split; discriminate.
Qed.

(** The rate of [v] valid rows out of [n]. *)
Lemma rate_as_fraction (v n : nat) :
  (0 < n)%nat ->
  (rate v n == (Z.of_nat v * 100 # Pos.of_nat n))%Q.
Proof.
  intro Hn. unfold rate.
  replace (Nat.ltb 0 n) with true by (symmetry; now apply Nat.ltb_lt).
  replace (Z.of_nat n) with (Z.pos (Pos.of_nat n)).
  - rewrite <- Qmake_Qdiv. unfold Qeq, Qmult, inject_Z. simpl. lia.
  - destruct n as [| m]; [lia |]. rewrite <- Pos.of_nat_succ. reflexivity.
Qed.

(** The row counts of the summary add up, and the report is valid
    exactly when no row is counted as an error. *)
Theorem row_counts_add_up
        (float_ok : string -> bool) (cfg : ValidationConfig) (t : Table)
        (sheet : option string) :
  exists s,
    summary (validate_spreadsheet float_ok cfg (Parsed t) sheet) = Some s /\
    (valid_rows s + error_rows s = total_rows s)%nat /\
    (is_valid (validate_spreadsheet float_ok cfg (Parsed t) sheet) = true
     <-> error_rows s = 0%nat).
Proof.
  eexists. split; [reflexivity |].
  cbn [validate_spreadsheet summarise valid_rows error_rows total_rows
       is_valid].
  unfold count_where. split.
  - rewrite filter_length. apply validate_rows_length.
  - apply forallb_no_counterexample.
Qed.

Lemma Zpos_of_nat (n : nat) :
  (0 < n)%nat -> Z.pos (Pos.of_nat n) = Z.of_nat n.
Proof.
  intro Hn. destruct n as [| m]; [lia |].
  rewrite <- Pos.of_nat_succ. reflexivity.
Qed.

Lemma rate_bounds (v n : nat) :
  (v <= n)%nat ->
  (0 <= rate v n)%Q /\ (rate v n <= inject_Z 100)%Q /\
  ((0 < n)%nat -> ((rate v n == inject_Z 100)%Q <-> v = n)).
Proof.
  intro Hle. destruct (Nat.eq_dec n 0) as [-> | Hn].
  - unfold rate. simpl. repeat split; try discriminate; lia.
  - assert (Hpos : (0 < n)%nat) by lia.
    pose proof (rate_as_fraction v n Hpos) as Hr.
    pose proof (Zpos_of_nat n Hpos) as Hz.
    rewrite Hr. unfold Qle, Qeq, inject_Z. cbn [Qnum Qden].
    rewrite Hz. repeat split; try lia.
Qed.

(** The validation rate lies between 0 and 100, and on a frame with rows
    it is 100 exactly when the report is valid. *)
Theorem validation_rate_bounds
        (float_ok : string -> bool) (cfg : ValidationConfig) (t : Table)
        (sheet : option string) :
  exists s,
    summary (validate_spreadsheet float_ok cfg (Parsed t) sheet) = Some s /\
    (0 <= validation_rate s)%Q /\ (validation_rate s <= inject_Z 100)%Q /\
    (rows t <> [] ->
     ((validation_rate s == inject_Z 100)%Q <->
      is_valid (validate_spreadsheet float_ok cfg (Parsed t) sheet) = true)).
Proof.
  eexists. split; [reflexivity |].
  cbn [validate_spreadsheet summarise validation_rate is_valid].
  set (results := validate_rows float_ok cfg t 0 (rows t)).
  assert (Hlen : length results = length (rows t))
    by apply validate_rows_length.
  assert (Hle : (count_where (status_is "valid") results
                 <= length (rows t))%nat).
  { rewrite <- Hlen. apply filter_length_le. }
  assert (Hall : forallb (status_is "valid") results = true <->
                 count_where (status_is "valid") results = length (rows t)).
  { rewrite forallb_no_counterexample. unfold count_where.
    pose proof (filter_length (status_is "valid") results). lia. }
  destruct (rate_bounds _ _ Hle) as [H0 [H100 Heq]].
  repeat split; try assumption.
  - intro Hv. apply Hall, Heq; [| exact Hv].
    destruct (rows t); [now elim H | simpl; lia].
  - intro Hv. apply Heq; [| now apply Hall].
    destruct (rows t); [now elim H | simpl; lia].
Qed.

(** The rows that are not valid split three ways: the invalid ones are
    the errors of the report, the missing ones its warnings, and the
    skipped ones are in neither list though they count as error rows. *)
Theorem non_valid_rows_partition
        (float_ok : string -> bool) (cfg : ValidationConfig) (t : Table)
        (sheet : option string) :
  exists results s,
    product_issue_results (validate_spreadsheet float_ok cfg (Parsed t) sheet)
    = Some results /\
    summary (validate_spreadsheet float_ok cfg (Parsed t) sheet) = Some s /\
    errors (validate_spreadsheet float_ok cfg (Parsed t) sheet)
    = map RowError (filter is_invalid results) /\
    warnings (validate_spreadsheet float_ok cfg (Parsed t) sheet)
    = filter is_missing_status results /\
    (length (errors (validate_spreadsheet float_ok cfg (Parsed t) sheet))
     + length (warnings (validate_spreadsheet float_ok cfg (Parsed t) sheet))
     + length (filter is_skipped results)
     = error_rows s)%nat.
Proof.
  eexists. eexists. split; [reflexivity |]. split; [reflexivity |].
  rewrite report_errors.
  cbn [validate_spreadsheet warnings summarise error_rows].
  set (results := validate_rows float_ok cfg t 0 (rows t)).
  assert (Hw : filter (status_is "missing") results
               = filter is_missing_status results).
  { apply filter_ext. intro r. unfold status_is, is_missing_status.
    now destruct (status r). }
  split; [reflexivity |]. split; [exact Hw |].
  rewrite Hw, length_map. unfold count_where.
  clearbody results. clear Hw.
  induction results as [| r results IH]; [reflexivity |].
  simpl. unfold is_invalid, is_missing_status, is_skipped in IH |- *.
  unfold status_is at 1.
  destruct (status r); simpl; lia.
Qed.

Lemma str_in_filter (p : string -> bool) (l : list string) (x : string) :
  In x l -> str_in x (filter p l) = p x.
Proof.
  intro Hin. destruct (p x) eqn:Hp.
  - apply str_in_In, filter_In. auto.
  - apply str_in_false. rewrite filter_In. intros [_ H]. congruence.
Qed.

(** Every column of the frame is either validated or listed as skipped,
    never both; the skipped ones are those whose name contains a skip
    fragment, and the two counts add up to the number of columns. *)
Theorem columns_partition
        (float_ok : string -> bool) (cfg : ValidationConfig) (t : Table)
        (sheet : option string) :
  exists s,
    summary (validate_spreadsheet float_ok cfg (Parsed t) sheet) = Some s /\
    (s_validation_columns s + length (s_skipped_columns s)
     = total_columns s)%nat /\
    forall col,
      In col (columns t) ->
      (In col (s_skipped_columns s)
       <-> is_skipped_column (skip_columns cfg) col = true) /\
      (In col (validation_columns cfg t)
       <-> ~ In col (s_skipped_columns s)).
Proof.
  eexists. split; [reflexivity |].
  cbn [validate_spreadsheet summarise s_validation_columns s_skipped_columns
       total_columns].
  assert (Hs : filter (fun col => negb (str_in col (validation_columns cfg t)))
                      (columns t)
               = filter (fun col =>
                           negb (negb (is_skipped_column (skip_columns cfg)
                                                         col)))
                        (columns t)).
  { apply filter_ext_in. intros col Hin. f_equal.
    unfold validation_columns. now apply str_in_filter. }
  rewrite Hs. split.
  - unfold validation_columns. apply filter_length.
  - intros col Hin. unfold validation_columns. rewrite !filter_In.
    destruct (is_skipped_column (skip_columns cfg) col); simpl;
      intuition congruence.
Qed.

(** ** The rule engine, beyond the claims *)

Section RuleEngineMore.

Variable float_ok : string -> bool.

Lemma check_columns_same_cells pcts ranks threshold cols c1 c2 todo :
  (forall col, In col todo -> row_get cols c1 col = row_get cols c2 col) ->
  check_columns float_ok pcts ranks threshold cols c1 todo
  = check_columns float_ok pcts ranks threshold cols c2 todo.
Proof.
  induction todo as [| col todo IH]; intro H; [reflexivity |].
  rewrite !check_columns_cons.
  rewrite (H col) by now left.
  rewrite IH; [reflexivity |]. intros c Hc. apply H. now right.
Qed.

Lemma frequency_check_same_cells t c1 c2 :
  (forall col, freq_col t = Some col ->
               row_get (columns t) c1 col = row_get (columns t) c2 col) ->
  frequency_check t c1 = frequency_check t c2.
Proof.
  intro H. unfold frequency_check.
  destruct (freq_col t) as [fc |]; [| reflexivity].
  now rewrite (H fc eq_refl).
Qed.

(** What the frequency test decides. *)
Lemma frequency_check_stops t cells :
  snd (frequency_check t cells) = false <->
  exists fc fv, freq_col t = Some fc /\
                row_get (columns t) cells fc = Some fv /\
                str_in (lower (str_cell fv)) frequency_skip_keywords = true.
Proof.
  unfold frequency_check. split.
  - destruct (freq_col t) as [fc |]; [| discriminate].
    destruct (negb (String.eqb fc "")); [| discriminate].
    destruct (row_get (columns t) cells fc) as [fv |] eqn:Hget;
      [| discriminate].
    destruct (andb (truthy fv)
                   (str_in (lower (str_cell fv)) frequency_skip_keywords))
      eqn:Hk; [| discriminate].
    intros _. apply andb_true_iff in Hk. exists fc, fv. tauto.
  - intros [fc [fv [Hfc [Hget Hkw]]]]. rewrite Hfc.
    assert (Hne : String.eqb fc "" = false).
    { apply String.eqb_neq. intros ->.
      unfold freq_col in Hfc. apply find_some in Hfc.
      destruct Hfc as [_ Hfc]. discriminate. }
    rewrite Hne, Hget, Hkw. simpl negb. cbv iota.
    now rewrite (keyword_cell_truthy fv Hkw).
Qed.

Lemma validate_row_status_skipped cfg t idx cells :
  status (validate_row float_ok cfg t idx cells) = skipped <->
  snd (frequency_check t cells) = false.
Proof.
  destruct (snd (frequency_check t cells)) eqn:Hf.
  - destruct (validate_row_checked float_ok cfg t idx cells Hf)
      as [_ [_ [Hst _]]].
    rewrite Hst.
    destruct (check_columns float_ok (percentage_columns cfg t)
                            (rank_columns cfg t) (rank_threshold cfg)
                            (columns t) cells (validation_columns cfg t))
      as [[| m ms] [| iv ivs]]; simpl; split; discriminate.
  - split; [reflexivity | intros _].
    unfold validate_row.
    destruct (frequency_check t cells) as [fv sv]. simpl in Hf. subst sv.
    reflexivity.
Qed.

End RuleEngineMore.

(** The cells of skipped columns play no part: two rows that agree on
    the validated columns and on the frequency column get the same
    verdict. *)
Theorem skipped_cells_ignored
        (float_ok : string -> bool) (cfg : ValidationConfig) (t : Table)
        (idx : nat) (cells1 cells2 : list Cell) :
  (forall col,
      In col (validation_columns cfg t) \/ freq_col t = Some col ->
      row_get (columns t) cells1 col = row_get (columns t) cells2 col) ->
  validate_row float_ok cfg t idx cells1
  = validate_row float_ok cfg t idx cells2.
Proof.
  intro H. unfold validate_row.
  rewrite (frequency_check_same_cells t cells1 cells2)
    by (intros col Hc; apply H; now right).
  rewrite (check_columns_same_cells float_ok _ _ _ _ cells1 cells2)
    by (intros col Hc; apply H; now left).
  reflexivity.
Qed.

(** A row is skipped exactly when the frame has a frequency column and
    the row's value there, lower-cased, is a skip keyword; in a frame
    without frequency column no row is skipped. *)
Theorem skipped_iff_frequency_keyword
        (float_ok : string -> bool) (cfg : ValidationConfig) (t : Table)
        (idx : nat) (cells : list Cell) :
  status (validate_row float_ok cfg t idx cells) = skipped <->
  exists fc fv, freq_col t = Some fc /\
                row_get (columns t) cells fc = Some fv /\
                str_in (lower (str_cell fv)) frequency_skip_keywords = true.
Proof.
  etransitivity;
    [apply validate_row_status_skipped
    | apply (frequency_check_stops float_ok)].
Qed.

(** A column adds no finding when it is a percentage column, or when
    it is neither a rank column nor an outcome-number column. *)
Lemma check_value_clean (float_ok : string -> bool)
      (pcts ranks : list string) (threshold : Z) (col : string)
      (value : Cell) :
  str_in col pcts = true \/
  (str_in col ranks = false /\ is_outcome_number_name col = false) ->
  snd (check_value float_ok pcts ranks threshold col value) = [].
Proof.
  unfold check_value. intros [Hp | [Hr Ho]].
  - destruct (is_missing value); [reflexivity |]. now rewrite Hp.
  - destruct (is_missing value); [reflexivity |].
    destruct (str_in col pcts); [reflexivity |].
    now rewrite Hr, Ho.
Qed.

(** Findings come only from rank and outcome-number columns that are not
    percentage columns: when every validated column is a percentage
    column or is neither a rank nor an outcome-number column, no row has
    a finding and no row is [invalid]. *)
Theorem findings_need_rank_or_outcome_column
        (float_ok : string -> bool) (cfg : ValidationConfig) (t : Table)
        (idx : nat) (cells : list Cell) :
  (forall col,
      In col (validation_columns cfg t) ->
      is_percentage_name col = true \/
      (is_rank_name col = false /\ is_outcome_number_name col = false)) ->
  invalid_values (validate_row float_ok cfg t idx cells) = [] /\
  status (validate_row float_ok cfg t idx cells) <> invalid.
Proof.
  intro H.
  assert (Hnone : snd (check_columns float_ok (percentage_columns cfg t)
                         (rank_columns cfg t) (rank_threshold cfg)
                         (columns t) cells (validation_columns cfg t)) = []).
  { destruct (snd (check_columns float_ok (percentage_columns cfg t)
                     (rank_columns cfg t) (rank_threshold cfg)
                     (columns t) cells (validation_columns cfg t)))
      as [| m ms] eqn:Hs; [reflexivity |].
    assert (Hm : In m (m :: ms)) by now left.
    rewrite <- Hs in Hm. apply check_columns_invalid in Hm.
    destruct Hm as [col [value [Hin [_ Hm]]]].
    destruct (validation_column_kinds cfg t col Hin) as [Hp Hr].
    rewrite check_value_clean in Hm; [destruct Hm |].
    rewrite Hp, Hr. exact (H col Hin). }
  destruct (snd (frequency_check t cells)) eqn:Hf.
  - destruct (validate_row_checked float_ok cfg t idx cells Hf)
      as [_ [Hivs [Hst _]]].
    rewrite Hivs, Hst, Hnone. split; [reflexivity |].
    destruct (fst _); discriminate.
  - apply (validate_row_status_skipped float_ok cfg t idx) in Hf.
    split; [| congruence].
    unfold validate_row in *.
    destruct (frequency_check t cells) as [fv [|]]; [| reflexivity].
    destruct (check_columns _ _ _ _ _ _ _) as [ms ivs].
    simpl in Hnone. now subst ivs.
Qed.

Lemma contains_empty (hay : string) : contains "" hay = true.
Proof. destruct hay; reflexivity. Qed.

(** An empty fragment in [skip_columns] switches the validation off:
    every column contains it, so no column is validated and every row is
    [valid] unless skipped by frequency. *)
Theorem empty_skip_fragment_disables_validation
        (float_ok : string -> bool) (cfg : ValidationConfig) (t : Table) :
  In "" (skip_columns cfg) ->
  validation_columns cfg t = [] /\
  forall idx cells,
    missing_columns (validate_row float_ok cfg t idx cells) = [] /\
    invalid_values (validate_row float_ok cfg t idx cells) = [] /\
    (status (validate_row float_ok cfg t idx cells) = valid \/
     status (validate_row float_ok cfg t idx cells) = skipped).
Proof.
  intro Hin.
  assert (Hv : validation_columns cfg t = []).
  { unfold validation_columns.
    induction (columns t) as [| col cols IH]; [reflexivity |].
    simpl. rewrite IH.
    replace (is_skipped_column (skip_columns cfg) col) with true;
      [reflexivity |].
    symmetry. unfold is_skipped_column. apply existsb_exists.
    exists "". split; [assumption | apply contains_empty]. }
  split; [exact Hv |]. intros idx cells.
  unfold validate_row. rewrite Hv.
  destruct (frequency_check t cells) as [fv [|]]; simpl; auto.
Qed.

(** A sheet without rows is valid: no error, no warning, a rate of 0,
    and [run] sends the completion notification for it. *)
Theorem empty_sheet_is_valid
        (float_ok : string -> bool) (transport : NotifierCall -> bool)
        (product_in_frame : string -> Table -> bool)
        (cfg : ValidationConfig) (sched : list (string * Schedule))
        (now : Date) (t : Table) (sheet : string) :
  rows t = [] ->
  let report := validate_spreadsheet float_ok cfg (Parsed t) (Some sheet) in
  is_valid report = true /\ errors report = [] /\ warnings report = [] /\
  option_map validation_rate (summary report) = Some 0%Q /\
  calls_of (run float_ok transport product_in_frame cfg sched now
                (Parsed t) (Some sheet))
  = [Completion (SheetReport report)].
Proof.
  intros Hrows report. subst report.
  unfold calls_of. rewrite run_one_call.
  unfold sheet_call, sheet_report. simpl.
  rewrite Hrows. simpl. repeat split; reflexivity.
Qed.

Lemma validate_rows_covers (float_ok : string -> bool)
      (cfg : ValidationConfig) (t : Table) (rs : list (list Cell))
      (idx : nat) (cells : list Cell) :
  In cells rs ->
  exists i, In (validate_row float_ok cfg t i cells)
               (validate_rows float_ok cfg t idx rs).
Proof.
  revert idx. induction rs as [| c rs IH]; intros idx Hin; [destruct Hin |].
  destruct Hin as [-> | Hin].
  - exists idx. now left.
  - destruct (IH (S idx) Hin) as [i Hi]. exists i. now right.
Qed.

(** In a valid report every row is clean. *)
Lemma valid_report_rows (float_ok : string -> bool)
      (cfg : ValidationConfig) (t : Table) (sheet : option string)
      (cells : list Cell) :
  is_valid (validate_spreadsheet float_ok cfg (Parsed t) sheet) = true ->
  In cells (rows t) ->
  snd (frequency_check t cells) = true /\
  forall col v,
    In col (validation_columns cfg t) ->
    row_get (columns t) cells col = Some v ->
    is_missing v = false.
Proof.
  intros Hv Hin. simpl in Hv. rewrite forallb_forall in Hv.
  destruct (validate_rows_covers float_ok cfg t (rows t) 0 cells Hin)
    as [i Hi].
  specialize (Hv _ Hi). rewrite status_is_valid in Hv.
  apply is_status_valid_iff in Hv.
  destruct (snd (frequency_check t cells)) eqn:Hf.
  - split; [reflexivity |]. intros col v Hcol Hget.
    destruct (validate_row_checked float_ok cfg t i cells Hf)
      as [_ [_ [Hst _]]].
    rewrite Hv in Hst.
    destruct (fst (check_columns float_ok (percentage_columns cfg t)
                     (rank_columns cfg t) (rank_threshold cfg)
                     (columns t) cells (validation_columns cfg t)))
      as [| m ms] eqn:Hms; [| discriminate].
    rewrite check_columns_missing in Hms.
    destruct (is_missing v) eqn:Hmiss; [| reflexivity].
    assert (Hc : In col (filter (fun col => match row_get (columns t) cells col
                                            with
                                            | Some value => is_missing value
                                            | None => false
                                            end) (validation_columns cfg t))).
    { apply filter_In. split; [assumption |]. now rewrite Hget. }
    rewrite Hms in Hc. destruct Hc.
  - apply (validate_row_status_skipped float_ok cfg t i) in Hf. congruence.
Qed.

(** A valid report means what it says for the validated columns: no row
    was skipped by frequency and no validated cell of any row is
    missing. *)
Theorem valid_report_has_no_missing_cell
        (float_ok : string -> bool) (cfg : ValidationConfig) (t : Table)
        (sheet : option string) :
  is_valid (validate_spreadsheet float_ok cfg (Parsed t) sheet) = true ->
  forall cells,
    In cells (rows t) ->
    (forall idx, status (validate_row float_ok cfg t idx cells) = valid) /\
    forall col v,
      In col (validation_columns cfg t) ->
      row_get (columns t) cells col = Some v ->
      is_missing v = false.
Proof.
  intros Hv cells Hin.
  destruct (valid_report_rows float_ok cfg t sheet cells Hv Hin)
    as [Hf Hclean].
  split; [| exact Hclean].
  intro idx.
  destruct (validate_rows_covers float_ok cfg t (rows t) 0 cells Hin)
    as [i Hi].
  simpl in Hv. rewrite forallb_forall in Hv. specialize (Hv _ Hi).
  rewrite status_is_valid in Hv. apply is_status_valid_iff in Hv.
  destruct (validate_row_checked float_ok cfg t i cells Hf)
    as [_ [_ [Hsti _]]].
  destruct (validate_row_checked float_ok cfg t idx cells Hf)
    as [_ [_ [Hst _]]].
  rewrite Hst, <- Hsti. exact Hv.
Qed.

(** ** The workflow, beyond the claims *)

(** [run] notifies once per sheet, completion exactly when the report is
    valid, and never ends as failed; the schedules, the date and the
    product test play no part in it, the frequency-based branch being
    closed by the summary having no frame. *)
Theorem run_ignores_schedules
        (float_ok : string -> bool) (transport : NotifierCall -> bool)
        (product_in_frame product_in_frame' : string -> Table -> bool)
        (cfg : ValidationConfig) (sched sched' : list (string * Schedule))
        (now now' : Date) (ld : Loaded) (sheet : string) :
  let outcome :=
    run float_ok transport product_in_frame cfg sched now ld (Some sheet) in
  let report := validate_spreadsheet float_ok cfg ld (Some sheet) in
  outcome [] = run float_ok transport product_in_frame' cfg sched' now' ld
                   (Some sheet) [] /\
  wr_validation_result (result_of outcome) = Some report /\
  wr_error (result_of outcome) = None /\
  wr_workflow_status (result_of outcome) <> "failed" /\
  calls_of outcome
  = [if is_valid report then Completion (SheetReport report)
     else MissingData (SheetReport report)] /\
  wr_notification_type (result_of outcome)
  = Some (if is_valid report then "completion" else "missing_data").
Proof.
  intros outcome report. subst outcome report.
  unfold result_of, calls_of. rewrite !run_one_call.
  unfold sheet_result, sheet_call, sheet_report. simpl.
  destruct (is_valid (validate_spreadsheet float_ok cfg ld (Some sheet)));
    repeat split; discriminate.
Qed.

(** Whatever the workbook and the schedules, a run ends as failed
    exactly when it has no aggregate report; a failed run reports no
    notification as sent and never sends the aggregated notification,
    and any other run sends it as its last call. *)
Theorem run_fails_iff_no_aggregate
        (float_ok : string -> bool) (transport : NotifierCall -> bool)
        (product_in_frame : string -> Table -> bool) (file_path : string)
        (cfg : ValidationConfig) (sched : list (string * Schedule))
        (now : Date) (wb : Workbook) :
  let outcome :=
    run_all_sheets float_ok transport product_in_frame file_path cfg sched
                   now wb in
  (workflow_status (result_of outcome) = "failed"
   <-> aggregated_result (result_of outcome) = None) /\
  (aggregated_result (result_of outcome) = None ->
   notification_sent (result_of outcome) = false /\
   error (result_of outcome) <> None /\
   forall a, ~ In (MissingData (AggregateReport a)) (calls_of outcome) /\
             ~ In (Completion (AggregateReport a)) (calls_of outcome)) /\
  (forall a,
      aggregated_result (result_of outcome) = Some a ->
      error (result_of outcome) = None /\
      exists sheet_calls,
        (calls_of outcome = sheet_calls ++ [MissingData (AggregateReport a)]
         \/ calls_of outcome
            = sheet_calls ++ [Completion (AggregateReport a)]) /\
        forall c, In c sheet_calls ->
                  exists r, c = MissingData (SheetReport r)
                            \/ c = Completion (SheetReport r)).
Proof.
  intro outcome. subst outcome.
  assert (Hsheet : forall sheets c,
             In c (map (sheet_call float_ok cfg) sheets) ->
             exists r, c = MissingData (SheetReport r)
                       \/ c = Completion (SheetReport r)).
  { intros sheets c Hc. apply in_map_iff in Hc.
    destruct Hc as [e [<- _]]. unfold sheet_call.
    destruct (is_valid _); eexists; eauto. }
  destruct wb as [sheets | message].
  - unfold result_of, calls_of. rewrite run_all_sheets_unfold. cbv zeta.
    destruct (should_send_periodic now sched false) as [periodic | e].
    + destruct (orb _ periodic); simpl;
        (split; [split; discriminate |]);
        (split; [discriminate |]);
        intros a Ha; injection Ha as <-;
        (split; [reflexivity |]);
        exists (map (sheet_call float_ok cfg) sheets); split; auto;
        apply Hsheet.
    + simpl. split; [split; reflexivity |]. split; [| discriminate].
      intros _. split; [reflexivity |]. split; [discriminate |].
      intro a. split; intro Hc; apply Hsheet in Hc;
        destruct Hc as [r [Hc | Hc]]; discriminate.
  - simpl. split; [split; reflexivity |]. split; [| discriminate].
    intros _. split; [reflexivity |]. split; [discriminate |].
    intro a. split; intros [].
Qed.

(** When the schedule test raises, the run fails after the sheets were
    processed: their results are kept, one notification per sheet has
    been sent already, and none for the aggregate. *)
Theorem failed_run_keeps_sheet_results
        (float_ok : string -> bool) (transport : NotifierCall -> bool)
        (product_in_frame : string -> Table -> bool) (file_path : string)
        (cfg : ValidationConfig) (sched : list (string * Schedule))
        (now : Date) (sheets : list (string * Loaded)) (e : Exn) :
  should_send_periodic now sched false = Raised e ->
  let outcome :=
    run_all_sheets float_ok transport product_in_frame file_path cfg sched
                   now (Sheets sheets) in
  workflow_status (result_of outcome) = "failed" /\
  error (result_of outcome) = Some e /\
  map fst (all_sheets_results (result_of outcome)) = map fst sheets /\
  (forall entry,
      In entry sheets ->
      In (fst entry, sheet_result float_ok transport cfg entry)
         (all_sheets_results (result_of outcome))) /\
  calls_of outcome = map (sheet_call float_ok cfg) sheets /\
  length (calls_of outcome) = length sheets.
Proof.
  intros He outcome. subst outcome.
  unfold result_of, calls_of. rewrite run_all_sheets_unfold. cbv zeta.
  rewrite He. simpl. repeat split.
  - rewrite map_map. reflexivity.
  - intros entry Hin. apply in_map_iff. now exists entry.
  - apply length_map.
Qed.

(** A sheet that cannot be read does not stop the run: every sheet is
    still run, in order; the aggregate is invalid, carries the failure
    message of that sheet under its name, and the missing-data
    notification is sent. *)
Theorem unreadable_sheet_does_not_abort
        (float_ok : string -> bool) (transport : NotifierCall -> bool)
        (product_in_frame : string -> Table -> bool) (file_path : string)
        (cfg : ValidationConfig) (sched : list (string * Schedule))
        (now : Date) (sheets : list (string * Loaded)) (periodic : bool)
        (name message : string) :
  should_send_periodic now sched false = Ok periodic ->
  In (name, Unreadable message) sheets ->
  let outcome :=
    run_all_sheets float_ok transport product_in_frame file_path cfg sched
                   now (Sheets sheets) in
  map fst (all_sheets_results (result_of outcome)) = map fst sheets /\
  notification_type (result_of outcome) = Some "missing_data_aggregated" /\
  exists a,
    aggregated_result (result_of outcome) = Some a /\
    agg_is_valid a = false /\
    In {| te_sheet := name; te_entry := ValidationError message |}
       (agg_errors a).
Proof.
  intros Hp Hin outcome. subst outcome.
  unfold result_of. rewrite run_all_sheets_unfold. cbv zeta. rewrite Hp.
  assert (Hall : forallb (fun e => is_valid (sheet_report float_ok cfg e))
                         sheets = false).
  { apply not_true_is_false. intro Hv.
    rewrite forallb_forall in Hv. specialize (Hv _ Hin). discriminate. }
  cbn [ls_all_valid loop_end]. rewrite Hall. simpl.
  split; [now rewrite map_map |]. split; [reflexivity |].
  eexists. split; [reflexivity |]. simpl. split; [exact Hall |].
  unfold merged_errors. apply in_flat_map.
  exists (name, Unreadable message). split; [assumption | now left].
Qed.

(** The transport decides [notification_sent] and nothing else: two
    runs that differ only in what the transport answers make the same
    calls and reach the same status, type and aggregate; so a run whose
    mails all fail still ends as [completed_success] when the sheets are
    valid. *)
Theorem transport_only_sets_notification_sent
        (float_ok : string -> bool) (transport transport' : NotifierCall -> bool)
        (product_in_frame : string -> Table -> bool) (file_path : string)
        (cfg : ValidationConfig) (sched : list (string * Schedule))
        (now : Date) (wb : Workbook) :
  let outcome :=
    run_all_sheets float_ok transport product_in_frame file_path cfg sched
                   now wb in
  let outcome' :=
    run_all_sheets float_ok transport' product_in_frame file_path cfg sched
                   now wb in
  calls_of outcome = calls_of outcome' /\
  workflow_status (result_of outcome) = workflow_status (result_of outcome') /\
  notification_type (result_of outcome)
  = notification_type (result_of outcome') /\
  aggregated_result (result_of outcome)
  = aggregated_result (result_of outcome') /\
  (forall a, aggregated_result (result_of outcome) = Some a ->
             notification_sent (result_of outcome)
             = transport (last (calls_of outcome) (Completion (AggregateReport a)))).
Proof.
  intros outcome outcome'. subst outcome outcome'.
  destruct wb as [sheets | message].
  - unfold result_of, calls_of. rewrite !run_all_sheets_unfold. cbv zeta.
    destruct (should_send_periodic now sched false) as [periodic | e].
    + cbn [ls_all_valid loop_end].
      destruct (orb _ periodic); simpl; repeat split;
        intros a Ha; injection Ha as <-; now rewrite last_last.
    + simpl. repeat split. discriminate.
  - simpl. repeat split. discriminate.
Qed.

Lemma merged_errors_sheet (float_ok : string -> bool)
      (cfg : ValidationConfig) (entry : string * Loaded) (e : TaggedError) :
  In e (merged_errors float_ok cfg [entry]) -> te_sheet e = fst entry.
Proof.
  unfold merged_errors. simpl. rewrite app_nil_r.
  destruct (snd entry) as [t | message].
  - intro H. apply in_map_iff in H. now destruct H as [r [<- _]].
  - intros [<- | []]. reflexivity.
Qed.

Lemma filter_none (A : Type) (p : A -> bool) (l : list A) :
  (forall x, In x l -> p x = false) -> filter p l = [].
Proof.
  induction l as [| x l IH]; intro H; [reflexivity |].
  simpl. rewrite (H x) by now left. apply IH. intros y Hy. apply H. now right.
Qed.

Lemma filter_all (A : Type) (p : A -> bool) (l : list A) :
  (forall x, In x l -> p x = true) -> filter p l = l.
Proof. intro H. apply forallb_filter_id. now apply forallb_forall. Qed.

Lemma count_for_sheet_other (float_ok : string -> bool)
      (cfg : ValidationConfig) (sheets : list (string * Loaded))
      (name : string) :
  ~ In name (map fst sheets) ->
  count_for_sheet (merged_errors float_ok cfg sheets) name = 0%nat.
Proof.
  intro Hn. unfold count_for_sheet. rewrite filter_none; [reflexivity |].
  intros e He. unfold merged_errors in He. apply in_flat_map in He.
  destruct He as [entry [Hin He]].
  assert (Hs : te_sheet e = fst entry).
  { apply (merged_errors_sheet float_ok cfg). unfold merged_errors. simpl.
    now rewrite app_nil_r. }
  apply String.eqb_neq. rewrite Hs. intros <-. apply Hn.
  now apply in_map.
Qed.

Lemma count_for_sheet_own (float_ok : string -> bool)
      (cfg : ValidationConfig) (sheets : list (string * Loaded))
      (entry : string * Loaded) :
  NoDup (map fst sheets) -> In entry sheets ->
  count_for_sheet (merged_errors float_ok cfg sheets) (fst entry)
  = length (merged_errors float_ok cfg [entry]).
Proof.
  intros Hnd Hin.
  induction sheets as [| e0 sheets IH]; [destruct Hin |].
  simpl in Hnd. apply NoDup_cons_iff in Hnd. destruct Hnd as [Hfresh Hnd].
  rewrite merged_errors_cons. unfold count_for_sheet.
  rewrite filter_app, length_app.
  fold (count_for_sheet (merged_errors float_ok cfg sheets) (fst entry)).
  destruct Hin as [-> | Hin].
  - rewrite count_for_sheet_other by assumption.
    rewrite filter_all; [lia |].
    intros e He. apply String.eqb_eq.
    now apply (merged_errors_sheet float_ok cfg).
  - rewrite IH by assumption.
    rewrite filter_none; [reflexivity |].
    intros e He. apply String.eqb_neq.
    rewrite (merged_errors_sheet float_ok cfg e0 e He).
    intro Heq. apply Hfresh. rewrite Heq. now apply in_map.
Qed.

(** With sheet names that differ, [errors_by_sheet] gives each sheet the
    number of its own merged errors, and [total_errors] is their sum. *)
Theorem errors_by_sheet_counts
        (float_ok : string -> bool) (transport : NotifierCall -> bool)
        (product_in_frame : string -> Table -> bool) (file_path : string)
        (cfg : ValidationConfig) (sched : list (string * Schedule))
        (now : Date) (sheets : list (string * Loaded)) (periodic : bool) :
  should_send_periodic now sched false = Ok periodic ->
  NoDup (map fst sheets) ->
  exists a,
    aggregated_result
      (result_of (run_all_sheets float_ok transport product_in_frame
                                 file_path cfg sched now (Sheets sheets)))
    = Some a /\
    agg_errors_by_sheet a
    = map (fun entry =>
             (fst entry, length (merged_errors float_ok cfg [entry])))
          sheets /\
    agg_total_errors a = length (agg_errors a) /\
    agg_total_errors a = list_sum (map snd (agg_errors_by_sheet a)).
Proof.
  intros Hp Hnd.
  assert (Hby : map (fun sheet =>
                       (sheet, count_for_sheet
                                 (merged_errors float_ok cfg sheets) sheet))
                    (map fst sheets)
                = map (fun entry =>
                         (fst entry,
                          length (merged_errors float_ok cfg [entry])))
                      sheets).
  { rewrite map_map. apply map_ext_in. intros entry Hin.
    now rewrite count_for_sheet_own. }
  assert (Hsum : length (merged_errors float_ok cfg sheets)
                 = list_sum
                     (map snd
                          (map (fun entry =>
                                  (fst entry,
                                   length (merged_errors float_ok cfg
                                                         [entry])))
                               sheets))).
  { clear. induction sheets as [| e0 sheets IH]; [reflexivity |].
    rewrite merged_errors_cons, length_app, IH. reflexivity. }
  unfold result_of. rewrite run_all_sheets_unfold. cbv zeta. rewrite Hp.
  destruct (orb _ periodic); eexists; (split; [reflexivity |]);
    cbn [aggregate agg_errors_by_sheet agg_total_errors agg_errors
         ls_all_errors loop_end];
    rewrite Hby; repeat split; exact Hsum.
Qed.

(** ** The scheduler, beyond the claims *)

Lemma schedule_branch_error (now : Date) (s : Schedule) (e : Exn) :
  schedule_branch now s = Raised e -> e = int_of_none.
Proof.
  unfold schedule_branch, py_int.
  destruct (deadline_day s) as [d |].
  - repeat match goal with
           | |- context [if ?c then _ else _] => destruct c
           end; discriminate.
  - repeat match goal with
           | |- context [if ?c then _ else _] => destruct c
           end;
      intro H; try discriminate; now injection H as <-.
Qed.

(** The schedule loop as a whole: it raises when some test raises, and
    otherwise returns the starting flag or-ed with the tests that
    fired. *)
Lemma should_send_periodic_fold (now : Date)
      (sched : list (string * Schedule)) (acc : bool) :
  should_send_periodic now sched acc
  = if existsb (fun ps => branch_raises now (snd ps)) sched
    then Raised int_of_none
    else Ok (orb acc (existsb (fun ps => branch_fires now (snd ps)) sched)).
Proof.
  revert acc. induction sched as [| [p s] sched IH]; intro acc; simpl.
  - now rewrite orb_false_r.
  - unfold branch_raises, branch_fires.
    destruct (schedule_branch now s) as [[tag |] | e] eqn:Hs; simpl.
    + rewrite IH. destruct (existsb _ sched); [reflexivity |].
      now rewrite orb_true_r.
    + apply IH.
    + now rewrite (schedule_branch_error now s e Hs).
Qed.

Lemma existsb_permutation (A : Type) (f : A -> bool) (l l' : list A) :
  Permutation l l' -> existsb f l = existsb f l'.
Proof.
  induction 1; simpl.
  - reflexivity.
  - now rewrite IHPermutation.
  - now rewrite !orb_assoc, (orb_comm (f y) (f x)).
  - congruence.
Qed.

(** The order of the schedules does not matter, neither for the trigger
    nor for whether the evaluation raises. *)
Theorem periodic_trigger_order_independent
        (now : Date) (sched sched' : list (string * Schedule)) (acc : bool) :
  Permutation sched sched' ->
  should_send_periodic now sched acc = should_send_periodic now sched' acc.
Proof.
  intro H. rewrite !should_send_periodic_fold.
  rewrite (existsb_permutation _ _ _ _ H).
  now rewrite (existsb_permutation _ (fun ps => branch_fires now (snd ps))
                                   _ _ H).
Qed.

Lemma branch_raises_iff (now : Date) (s : Schedule) :
  branch_raises now s = true <->
  reaches_int now s /\ deadline_day s = None.
Proof.
  unfold branch_raises, reaches_int, schedule_branch, py_int.
  destruct (frequency s) as [f |].
  - destruct (String.eqb_spec f "monthly") as [-> | Hm].
    { destruct (deadline_day s) as [d |].
      - destruct (day now >=? d - 7); split; try discriminate;
          intros [_ H]; discriminate.
      - split; auto. }
    destruct (String.eqb_spec f "bi-annual") as [-> | Hb].
    { destruct (deadline_months s) as [months |]; simpl.
      - destruct (existsb (Z.eqb (month now)) months) eqn:Hin.
        + apply existsb_eqb_In in Hin.
          destruct (deadline_day s) as [d |].
          * destruct (day now >=? d - 7); split; try discriminate;
              intros [_ H]; discriminate.
          * split; [intros _ | reflexivity].
            split; [| reflexivity]. right. left.
            split; [reflexivity |]. now exists months.
        + split; [discriminate |].
          intros [[H | [[_ [ms [Hms Hmem]]] | [H _]]] _];
            try discriminate.
          injection Hms as <-. apply existsb_eqb_In in Hmem. congruence.
      - split; [discriminate |].
        intros [[H | [[_ [ms [Hms _]]] | [H _]]] _]; discriminate. }
    destruct (String.eqb_spec f "annual") as [-> | Ha].
    { destruct (deadline_month s) as [m |].
      - destruct (Z.eqb_spec (month now) m) as [<- | Hne].
        + destruct (deadline_day s) as [d |].
          * destruct (day now >=? d - 28); split; try discriminate;
              intros [_ H]; discriminate.
          * split; [intros _ | reflexivity].
            split; [| reflexivity]. right. right. now split.
        + split; [discriminate |].
          intros [[H | [[H _] | [_ H]]] _]; try discriminate.
          injection H as H. congruence.
      - split; [discriminate |].
        intros [[H | [[H _] | [_ H]]] _]; discriminate. }
    split; [discriminate |].
    intros [[H | [[H _] | [H _]]] _]; injection H as H; congruence.
  - split; [discriminate |].
    intros [[H | [[H _] | [H _]]] _]; discriminate.
Qed.

(** The evaluation of the schedules raises exactly when one of them gets
    as far as [int(deadline_day)] (it is monthly, or bi-annual or annual
    in one of its months) and has no [deadline_day]; the exception is
    then the [TypeError] of [int(None)]. *)
Theorem periodic_raises_iff
        (now : Date) (sched : list (string * Schedule)) (acc : bool) :
  ((exists e, should_send_periodic now sched acc = Raised e) <->
   exists ps, In ps sched /\ reaches_int now (snd ps) /\
              deadline_day (snd ps) = None) /\
  (forall e, should_send_periodic now sched acc = Raised e ->
             e = int_of_none).
Proof.
  rewrite should_send_periodic_fold.
  destruct (existsb (fun ps => branch_raises now (snd ps)) sched) eqn:He.
  - apply existsb_exists in He. destruct He as [ps [Hin Hr]].
    apply branch_raises_iff in Hr. split.
    + split; [intros _ | intros _; now exists int_of_none].
      exists ps. tauto.
    + intros e H. now injection H as <-.
  - split; [| discriminate].
    split; [intros [e H]; discriminate |].
    intros [ps [Hin Hr]]. apply branch_raises_iff in Hr.
    assert (Ht : existsb (fun ps => branch_raises now (snd ps)) sched = true).
    { apply existsb_exists. now exists ps. }
    congruence.
Qed.

(** The windows never close within the month: a schedule that is due on
    some day is due on every later day of the same month, also after
    its deadline. *)
Theorem window_stays_open
        (s : Schedule) (m d1 d2 : Z) (tag : string) :
  schedule_branch {| day := d1; month := m |} s = Ok (Some tag) ->
  d1 <= d2 ->
  schedule_branch {| day := d2; month := m |} s = Ok (Some tag).
Proof.
  unfold schedule_branch, py_int. simpl. intros H Hle.
  destruct (frequency s) as [f |]; [| discriminate].
  destruct (String.eqb f "monthly").
  { destruct (deadline_day s) as [d |]; [| discriminate].
    destruct (d1 >=? d - 7) eqn:H1; [| discriminate].
    apply geb_ge in H1.
    replace (d2 >=? d - 7) with true; [exact H |].
    symmetry. apply geb_ge. lia. }
  destruct (String.eqb f "bi-annual").
  { destruct (existsb _ _); [| discriminate].
    destruct (deadline_day s) as [d |]; [| discriminate].
    destruct (d1 >=? d - 7) eqn:H1; [| discriminate].
    apply geb_ge in H1.
    replace (d2 >=? d - 7) with true; [exact H |].
    symmetry. apply geb_ge. lia. }
  destruct (String.eqb f "annual"); [| discriminate].
  destruct (match deadline_month s with
            | Some m0 => m =? m0
            | None => false
            end); [| discriminate].
  destruct (deadline_day s) as [d |]; [| discriminate].
  destruct (d1 >=? d - 28) eqn:H1; [| discriminate].
  apply geb_ge in H1.
  replace (d2 >=? d - 28) with true; [exact H |].
  symmetry. apply geb_ge. lia.
Qed.

(** On a calendar day (1 to 31), a monthly schedule whose [deadline_day]
    is 8 or less is due every day, and one whose [deadline_day] is 39 or
    more is never due. *)
Theorem monthly_window_extremes (now : Date) (d : Z) :
  1 <= day now <= 31 ->
  (d <= 8 -> schedule_branch now (monthly (Some d)) = Ok (Some "monthly")) /\
  (39 <= d -> schedule_branch now (monthly (Some d)) = Ok None).
Proof.
  intro Hday. unfold schedule_branch, monthly, py_int. simpl. split; intro Hd.
  - replace (day now >=? d - 7) with true; [reflexivity |].
    symmetry. apply geb_ge. lia.
  - replace (day now >=? d - 7) with false; [reflexivity |].
    symmetry. apply not_true_is_false. rewrite geb_ge. lia.
Qed.

(** ** [_check_product_frequency] *)

(** A product is left out of validation exactly when its frequency is
    bi-annual outside June and December, or annual outside December;
    its status is then [skipped], and [valid] otherwise. A product
    without schedule, or without frequency, counts as monthly and is
    always validated; so is a product with an unrecognized frequency. *)
Theorem product_validated_unless_off_season
        (sched : list (string * Schedule)) (m : Z) (product : string) :
  let info := check_product_frequency sched m product in
  (fi_should_validate info = false <->
   (fi_frequency info = "bi-annual" /\ m <> 6 /\ m <> 12) \/
   (fi_frequency info = "annual" /\ m <> 12)) /\
  (fi_status info = "skipped" <-> fi_should_validate info = false) /\
  (fi_status info = "valid" <-> fi_should_validate info = true) /\
  (dict_get sched product = None ->
   fi_frequency info = "monthly" /\ fi_should_validate info = true) /\
  (forall s, dict_get sched product = Some s -> frequency s = None ->
             fi_frequency info = "monthly" /\ fi_should_validate info = true) /\
  fi_product info = product.
Proof.
  intro info. subst info. unfold check_product_frequency.
  set (freq := match dict_get sched product with
               | Some product_config =>
                   match frequency product_config with
                   | Some f => f
                   | None => "monthly"
                   end
               | None => "monthly"
               end).
  assert (Hnone : dict_get sched product = None -> freq = "monthly").
  { intro H. subst freq. now rewrite H. }
  assert (Hnof : forall s, dict_get sched product = Some s ->
                           frequency s = None -> freq = "monthly").
  { intros s H1 H2. subst freq. now rewrite H1, H2. }
  clearbody freq.
  destruct (String.eqb_spec freq "monthly") as [-> | Hm];
    [| destruct (String.eqb_spec freq "bi-annual") as [-> | Hb];
       [destruct (Z.eqb_spec m 6) as [-> | H6];
        [| destruct (Z.eqb_spec m 12) as [-> | H12]]
       | destruct (String.eqb_spec freq "annual") as [-> | Ha];
         [destruct (Z.eqb_spec m 12) as [-> | H12] |]]];
    simpl; repeat split; intros;
    repeat match goal with
           | H : _ \/ _ |- _ => destruct H
           | H : _ /\ _ |- _ => destruct H
           | H : dict_get _ _ = None |- _ => apply Hnone in H
           | H1 : dict_get _ _ = Some ?s, H2 : frequency ?s = None |- _ =>
               pose proof (Hnof s H1 H2); clear H2
           end;
    try congruence; try lia;
    try (left; repeat split; congruence);
    try (right; repeat split; congruence).
Qed.

(** ** [validate_file_structure] *)

(** The structure is valid exactly when every required column is a
    column of the frame; the columns reported missing are the required
    ones that are not, in the order of the requirement. *)
Theorem file_structure_valid_iff
        (t : Table) (required : list string) :
  (fst (validate_file_structure t required) = true <->
   forall col, In col required -> In col (columns t)) /\
  (fst (validate_file_structure t required) = true <->
   snd (validate_file_structure t required) = []) /\
  (forall col,
      In col (snd (validate_file_structure t required)) <->
      In col required /\ ~ In col (columns t)) /\
  exists kept,
    snd (validate_file_structure t required)
    = filter (fun col => negb (kept col)) required /\
    forall col, kept col = true <-> In col (columns t).
Proof.
  unfold validate_file_structure. simpl.
  set (missing_cols := filter (fun col => negb (str_in col (columns t)))
                              required).
  assert (Hin : forall col, In col missing_cols <->
                            In col required /\ ~ In col (columns t)).
  { intro col. unfold missing_cols. rewrite filter_In.
    rewrite negb_true_iff, str_in_false. tauto. }
  assert (Hnil : Nat.eqb (length missing_cols) 0 = true <-> missing_cols = []).
  { rewrite Nat.eqb_eq. apply length_zero_iff_nil. }
  split; [| split; [exact Hnil | split; [exact Hin |]]].
  - rewrite Hnil. split.
    + intros Hm col Hreq.
      destruct (str_in col (columns t)) eqn:Hs; [now apply str_in_In |].
      assert (Hc : In col missing_cols).
      { apply Hin. split; [assumption | now apply str_in_false]. }
      rewrite Hm in Hc. destruct Hc.
    + intro Hall. destruct missing_cols as [| col l] eqn:Hm; [reflexivity |].
      assert (Hc : In col (col :: l)) by now left.
      apply Hin in Hc. destruct Hc as [Hreq Hno].
      elim Hno. now apply Hall.
  - exists (fun col => str_in col (columns t)). split; [reflexivity |].
    intro col. apply str_in_In.
Qed.

(** ** [str.split], [Config.get] and the stored sheet names *)

Lemma split_on_cons (sep : ascii) (s : string) :
  exists field fields, split_on sep s = field :: fields.
Proof.
  destruct s as [| c s]; simpl; [eauto |].
  destruct (Ascii.eqb c sep); [eauto |].
  destruct (split_on sep s); eauto.
Qed.

(** Joining the fields of a split gives the string back. *)
Lemma join_split_on (sep : ascii) (s : string) :
  join (String sep "") (split_on sep s) = s.
Proof.
  unfold join. induction s as [| c s IH]; [reflexivity |].
  simpl split_on.
  destruct (split_on_cons sep s) as [field [fields Hs]].
  rewrite Hs in *.
  destruct (Ascii.eqb_spec c sep) as [-> | Hc].
  - change (String.concat (String sep "") ("" :: field :: fields))
      with (String sep (String.concat (String sep "") (field :: fields))).
    now rewrite IH.
  - destruct fields as [| f2 fields]; simpl in *; now rewrite IH.
Qed.

Lemma lacks_cons (sep c : ascii) (s : string) :
  lacks sep (String c s) -> c <> sep /\ lacks sep s.
Proof.
  unfold lacks, chars. simpl. intro H. split.
  - intro Hc. apply H. now left.
  - intro Hs. apply H. now right.
Qed.

(** A field without separator, followed by the separator. *)
Lemma split_on_field (sep : ascii) (k rest : string) :
  lacks sep k ->
  split_on sep (k ++ String sep rest) = k :: split_on sep rest.
Proof.
  induction k as [| c k IH]; intro Hk; simpl.
  - now rewrite Ascii.eqb_refl.
  - apply lacks_cons in Hk. destruct Hk as [Hc Hk].
    rewrite IH by assumption.
    destruct (Ascii.eqb_spec c sep); [contradiction | reflexivity].
Qed.

Lemma split_on_single (sep : ascii) (k : string) :
  lacks sep k -> split_on sep k = [k].
Proof.
  induction k as [| c k IH]; intro Hk; simpl; [reflexivity |].
  apply lacks_cons in Hk. destruct Hk as [Hc Hk].
  rewrite IH by assumption.
  destruct (Ascii.eqb_spec c sep); [contradiction | reflexivity].
Qed.

(** Splitting a join of fields without separator gives the fields. *)
Lemma split_on_join (sep : ascii) (ks : list string) :
  ks <> [] -> Forall (lacks sep) ks ->
  split_on sep (join (String sep "") ks) = ks.
Proof.
  unfold join. intros Hne Hall.
  induction Hall as [| k ks Hk Hks IH]; [now elim Hne |].
  destruct ks as [| k2 ks].
  - simpl. now apply split_on_single.
  - change (String.concat (String sep "") (k :: k2 :: ks))
      with (k ++ String sep (String.concat (String sep "") (k2 :: ks)))%string.
    rewrite split_on_field by assumption.
    rewrite IH; [reflexivity | discriminate].
Qed.

(** [Config.get] follows a dotted key one level at a time: a first
    component without dot selects the entry of the dict under which the
    rest of the key is looked up; a key without dot reads the entry
    itself; the default comes back when the entry is absent, and on every
    key when the value is not a dict. *)
Theorem config_get_nested
        (items : list (string * Yaml)) (k rest : string) (default : Yaml) :
  lacks "."%char k ->
  config_get (YDict items) (k ++ "." ++ rest) default
  = match dict_get items k with
    | Some v => config_get v rest default
    | None => default
    end /\
  config_get (YDict items) k default
  = match dict_get items k with
    | Some v => v
    | None => default
    end /\
  forall config key,
    (forall items', config <> YDict items') ->
    config_get config key default = default.
Proof.
  intro Hk. unfold config_get. split; [| split].
  - change (k ++ "." ++ rest)%string with (k ++ String "." rest)%string.
    rewrite split_on_field by assumption. simpl.
    now destruct (dict_get items k).
  - rewrite split_on_single by assumption. simpl.
    now destruct (dict_get items k).
  - intros config key Hno.
    destruct (split_on_cons "." key) as [field [fields ->]]. simpl.
    destruct config; try reflexivity. now elim (Hno items0).
Qed.

Lemma find_app_last (A : Type) (f : A -> bool) (l : list A) (x : A) :
  find f (l ++ [x])
  = match find f l with
    | Some y => Some y
    | None => if f x then Some x else None
    end.
Proof.
  induction l as [| y l IH]; simpl; [reflexivity |].
  destruct (f y); [reflexivity | exact IH].
Qed.

Lemma next_id_above (db : Database) (r : FileRecord) :
  In r db -> fr_id r < next_id db.
Proof.
  unfold next_id. induction db as [| r0 db IH]; [intros [] |].
  cbn [map fold_right]. intros [-> | Hin]; [lia |]. specialize (IH Hin). lia.
Qed.

(** What [get_file_info] decodes from what [store_file_data] encoded. *)
Lemma sheet_names_round_trip (names : list string) :
  Forall (fun n => n <> "" /\ lacks ","%char n) names ->
  sheet_names_of (sheet_names_str (Some names)) = names.
Proof.
  intro H. destruct names as [| n names]; [reflexivity |].
  unfold sheet_names_str, sheet_names_of.
  assert (Hne : String.eqb (join "," (n :: names)) "" = false).
  { apply String.eqb_neq. inversion H as [| ? ? [Hn _] _]; subst.
    unfold join. destruct names; simpl.
    - exact Hn.
    - destruct n; [now elim Hn | discriminate]. }
  rewrite Hne. apply (split_on_join ","%char); [discriminate |].
  apply Forall_impl with (2 := H). now intros a [_ Ha].
Qed.

(** A stored file can be read back under the id it was given: its
    bytes, its name, its type, and its sheet names, provided no sheet
    name is empty or contains a comma; the files stored before keep
    their ids and contents. *)
Theorem stored_file_is_retrievable
        (db : Database) (timestamp filename file_data file_type : string)
        (names : list string) (metadata : option string) :
  Forall (fun n => n <> "" /\ lacks ","%char n) names ->
  let stored :=
    store_file_data (Some db) timestamp filename file_data file_type
                    (Some names) metadata in
  snd stored = true /\
  get_file_data (fst stored) (next_id db) = Some file_data /\
  (exists info,
      get_file_info (fst stored) (next_id db) = Some info /\
      info_filename info = filename /\
      info_file_type info = file_type /\
      info_upload_date info = timestamp /\
      info_sheet_names info = names) /\
  forall file_id,
    file_id <> next_id db ->
    get_file_data (fst stored) file_id = get_file_data (Some db) file_id /\
    get_file_info (fst stored) file_id = get_file_info (Some db) file_id.
Proof.
  intros Hnames stored. subst stored.
  unfold store_file_data, get_file_data, get_file_info, select_by_id.
  cbn [fst snd].
  assert (Hfresh : find (fun r => fr_id r =? next_id db) db = None).
  { destruct (find (fun r => fr_id r =? next_id db) db) as [r |] eqn:Hf;
      [| reflexivity].
    apply find_some in Hf. destruct Hf as [Hin Heq].
    apply Z.eqb_eq in Heq. pose proof (next_id_above db r Hin). lia. }
  split; [reflexivity |]. split; [| split].
  - rewrite find_app_last, Hfresh. cbn [fr_id].
    now rewrite Z.eqb_refl.
  - rewrite find_app_last, Hfresh. cbn [fr_id].
    rewrite Z.eqb_refl. eexists. split; [reflexivity |].
    cbn. repeat split. now apply sheet_names_round_trip.
  - intros file_id Hid. rewrite !find_app_last. cbn [fr_id].
    replace (next_id db =? file_id) with false
      by (symmetry; apply Z.eqb_neq; congruence).
    destruct (find (fun r => fr_id r =? file_id) db); split; reflexivity.
Qed.

(** ** [_check_missing_data] *)

Lemma indexed_from_covers (A : Type) (l : list A) (a : nat) (x : A) :
  In x l -> exists i, In (i, x) (combine (seq a (length l)) l).
Proof.
  revert a. induction l as [| y l IH]; intros a Hin; [destruct Hin |].
  simpl. destruct Hin as [-> | Hin].
  - exists a. now left.
  - destruct (IH (S a) Hin) as [i Hi]. exists i. now right.
Qed.

Lemma indexed_from_count (A : Type) (p : A -> bool) (l : list A) (a : nat) :
  length (filter (fun ir => p (snd ir)) (combine (seq a (length l)) l))
  = length (filter p l).
Proof.
  revert a. induction l as [| y l IH]; intro a; [reflexivity |].
  simpl. destruct (p y); simpl; now rewrite IH.
Qed.

(** Some row satisfies the mask exactly when an index is listed. *)
Lemma rows_where_nonempty (p : list Cell -> bool) (t : Table) :
  rows_where p t <> [] <->
  exists cells, In cells (rows t) /\ p cells = true.
Proof.
  unfold rows_where, indexed_rows. split.
  - destruct (filter _ _) as [| ir l] eqn:Hf; [intro H; now elim H |].
    intros _. assert (Hin : In ir (ir :: l)) by now left.
    rewrite <- Hf in Hin. apply filter_In in Hin. destruct Hin as [Hin Hp].
    exists (snd ir). split; [| exact Hp].
    destruct ir as [i cells]. now apply in_combine_r in Hin.
  - intros [cells [Hin Hp]].
    destruct (indexed_from_covers _ (rows t) 0 cells Hin) as [i Hi].
    assert (Hf : In (i, cells)
                    (filter (fun ir => p (snd ir))
                            (combine (seq 0 (length (rows t))) (rows t)))).
    { apply filter_In. now split. }
    intro Hnil. apply map_eq_nil in Hnil. rewrite Hnil in Hf. destruct Hf.
Qed.

Lemma rows_where_count (p : list Cell -> bool) (t : Table) :
  length (rows_where p t) = length (filter p (rows t)).
Proof.
  unfold rows_where, indexed_rows. rewrite length_map.
  apply indexed_from_count.
Qed.

Lemma rows_where_mono (p q : list Cell -> bool) (t : Table) (i : nat) :
  (forall cells, In cells (rows t) -> p cells = true -> q cells = true) ->
  In i (rows_where p t) -> In i (rows_where q t).
Proof.
  unfold rows_where, indexed_rows. intros H Hi.
  apply in_map_iff in Hi. destruct Hi as [[j cells] [Hj Hin]].
  apply filter_In in Hin. destruct Hin as [Hin Hp].
  apply in_map_iff. exists (j, cells). split; [assumption |].
  apply filter_In. split; [assumption |].
  apply H; [| assumption]. now apply in_combine_r in Hin.
Qed.

Lemma dict_get_set (A : Type) (d : list (string * A)) (k k' : string)
      (v : A) :
  dict_get (dict_set d k v) k'
  = if String.eqb k k' then Some v else dict_get d k'.
Proof.
  induction d as [| [k0 v0] d IH]; simpl.
  - reflexivity.
  - destruct (String.eqb_spec k0 k) as [-> | Hk0]; simpl.
    + now destruct (String.eqb k k').
    + rewrite IH.
      destruct (String.eqb_spec k0 k') as [-> | Hk0'];
        [| reflexivity].
      destruct (String.eqb_spec k k'); [congruence | reflexivity].
Qed.

(** The loop over the non-nullable columns. *)
Lemma non_nullable_loop (t : Table) (nn : list string) (flag : bool)
      (d : list (string * (nat * list nat))) :
  fst (fold_left (non_nullable_step t) nn (flag, d))
  = orb flag (existsb (column_recorded t) nn) /\
  forall col,
    dict_get (snd (fold_left (non_nullable_step t) nn (flag, d))) col
    = if andb (str_in col nn) (column_recorded t col)
      then Some (length (column_nulls t col), column_nulls t col)
      else dict_get d col.
Proof.
  revert flag d. induction nn as [| c nn IH]; intros flag d.
  - simpl. split; [now rewrite orb_false_r | reflexivity].
  - cbn [fold_left]. unfold non_nullable_step at 2 4.
    fold (column_nulls t c). cbn [snd].
    assert (Hrec : column_recorded t c
                   = andb (str_in c (columns t))
                          (Nat.ltb 0 (length (column_nulls t c))))
      by reflexivity.
    destruct (str_in c (columns t)) eqn:Hc;
      [destruct (Nat.ltb 0 (length (column_nulls t c))) eqn:Hn |];
      simpl in Hrec; destruct (IH flag d) as [IH1 IH2];
      try destruct (IH true (dict_set d c (length (column_nulls t c),
                                           column_nulls t c)))
        as [IH1' IH2'].
    + split.
      * cbn [existsb]. rewrite IH1', Hrec. now rewrite orb_true_r.
      * intro col. rewrite IH2', dict_get_set. cbn [str_in existsb].
        fold (str_in col nn).
        destruct (String.eqb_spec col c) as [-> | Hne].
        -- rewrite String.eqb_refl, Hrec. simpl.
           now destruct (str_in c nn).
        -- destruct (String.eqb_spec c col); [congruence |]. reflexivity.
    + split.
      * cbn [existsb]. now rewrite IH1, Hrec.
      * intro col. rewrite IH2. cbn [str_in existsb]. fold (str_in col nn).
        destruct (String.eqb_spec col c) as [-> | Hne];
          [now rewrite Hrec, andb_false_r | reflexivity].
    + split.
      * cbn [existsb]. now rewrite IH1, Hrec.
      * intro col. rewrite IH2. cbn [str_in existsb]. fold (str_in col nn).
        destruct (String.eqb_spec col c) as [-> | Hne];
          [now rewrite Hrec, andb_false_r | reflexivity].
Qed.

Lemma has_missing_data_cases (nn : list string) (t : Table) :
  has_missing_data (check_missing_data nn t) = true <->
  (exists cells, In cells (rows t) /\ forallb isnull cells = true) \/
  (exists col cells,
      In col nn /\ In col (columns t) /\ In cells (rows t) /\
      null_in t col cells = true) \/
  (exists cells, In cells (rows t) /\ many_missing t cells = true).
Proof.
  unfold check_missing_data.
  destruct (fold_left (non_nullable_step t) nn
              (match rows_where (forallb isnull) t with
               | [] => false
               | _ => true
               end, [])) as [flag2 by_column] eqn:Hfold.
  pose proof (non_nullable_loop t nn
                (match rows_where (forallb isnull) t with
                 | [] => false
                 | _ => true
                 end) []) as [Hflag _].
  rewrite Hfold in Hflag. simpl in Hflag. cbn [has_missing_data].
  rewrite <- (rows_where_nonempty (forallb isnull) t).
  rewrite <- (rows_where_nonempty (many_missing t) t).
  assert (Hcol : existsb (column_recorded t) nn = true <->
                 exists col cells,
                   In col nn /\ In col (columns t) /\ In cells (rows t) /\
                   null_in t col cells = true).
  { rewrite existsb_exists. unfold column_recorded, column_nulls. split.
    - intros [col [Hin Hrec]]. apply andb_true_iff in Hrec.
      destruct Hrec as [Hc Hn]. apply str_in_In in Hc.
      apply Nat.ltb_lt in Hn.
      assert (Hne : rows_where (null_in t col) t <> []).
      { intro H. rewrite H in Hn. simpl in Hn. lia. }
      apply rows_where_nonempty in Hne. destruct Hne as [cells [Hr Hnull]].
      now exists col, cells.
    - intros [col [cells [Hin [Hc [Hr Hnull]]]]]. exists col.
      split; [assumption |]. apply andb_true_iff. split.
      + now apply str_in_In.
      + apply Nat.ltb_lt.
        destruct (rows_where (null_in t col) t) eqn:He; [| simpl; lia].
        exfalso. revert He. apply rows_where_nonempty. now exists cells. }
  rewrite <- Hcol, Hflag.
  destruct (rows_where (many_missing t) t) as [| i many];
    destruct (rows_where (forallb isnull) t) as [| j empty];
    destruct (existsb (column_recorded t) nn); simpl;
    split; auto; try (intros _; auto; fail);
    try (intros [H | [H | H]]; try discriminate; now elim H);
    try (intros _; left; discriminate);
    try (intros _; right; right; discriminate).
Qed.

(** [has_missing_data] is set exactly when some row is entirely null,
    or a non-nullable column of the frame has a null, or some row has
    more than half of its cells null. *)
Theorem has_missing_data_iff (nn : list string) (t : Table) :
  has_missing_data (check_missing_data nn t) = true <->
  (exists cells, In cells (rows t) /\ forallb isnull cells = true) \/
  (exists col cells v,
      In col nn /\ In col (columns t) /\ In cells (rows t) /\
      row_get (columns t) cells col = Some v /\ isnull v = true) \/
  (exists cells,
      In cells (rows t) /\
      (length (columns t) < 2 * length (filter isnull cells))%nat).
Proof.
  rewrite has_missing_data_cases.
  assert (Hnull : forall col cells,
             null_in t col cells = true <->
             exists v, row_get (columns t) cells col = Some v /\
                       isnull v = true).
  { intros col cells. unfold null_in.
    destruct (row_get (columns t) cells col) as [v |]; split.
    - intro H. now exists v.
    - intros [v' [Hv H]]. now injection Hv as ->.
    - discriminate.
    - intros [v' [Hv _]]. discriminate. }
  split; (intros [H | [H | H]]; [now left | right; left | right; right]).
  - destruct H as [col [cells [H1 [H2 [H3 H4]]]]]. apply Hnull in H4.
    destruct H4 as [v [Hv Hn]]. now exists col, cells, v.
  - destruct H as [cells [H1 H2]]. exists cells. split; [assumption |].
    now apply Nat.ltb_lt in H2.
  - destruct H as [col [cells [v [H1 [H2 [H3 [H4 H5]]]]]]].
    exists col, cells. repeat split; try assumption.
    apply Hnull. now exists v.
  - destruct H as [cells [H1 H2]]. exists cells. split; [assumption |].
    now apply Nat.ltb_lt.
Qed.

(** [missing_by_column] has an entry exactly for the non-nullable
    columns that are columns of the frame and hold a null; the entry
    gives the rows where the column is null and their number, which is
    the number of rows of the frame with a null in that column. *)
Theorem missing_by_column_lookup
        (nn : list string) (t : Table) (col : string) :
  dict_get (missing_by_column (check_missing_data nn t)) col
  = (if andb (str_in col nn) (column_recorded t col)
     then Some (length (column_nulls t col), column_nulls t col)
     else None) /\
  length (column_nulls t col) = length (filter (null_in t col) (rows t)) /\
  (column_recorded t col = true <->
   In col (columns t) /\
   exists cells, In cells (rows t) /\ null_in t col cells = true).
Proof.
  split; [| split].
  - unfold check_missing_data.
    pose proof (non_nullable_loop t nn
                  (match rows_where (forallb isnull) t with
                   | [] => false
                   | _ => true
                   end) []) as [_ Hd].
    destruct (fold_left (non_nullable_step t) nn _) as [flag2 by_column].
    cbn [missing_by_column]. simpl in Hd. apply Hd.
  - apply rows_where_count.
  - unfold column_recorded, column_nulls.
    rewrite andb_true_iff, str_in_In, Nat.ltb_lt.
    rewrite <- (rows_where_nonempty (null_in t col) t).
    destruct (rows_where (null_in t col) t); simpl; split;
      intros [H1 H2]; split; auto; try lia; try discriminate.
    now elim H2.
Qed.

Lemma row_get_In (cols : list string) (cells : list Cell) (col : string)
      (v : Cell) :
  row_get cols cells col = Some v -> In v cells.
Proof.
  revert cells. induction cols as [| c cols IH]; intros cells H;
    [discriminate |].
  destruct cells as [| x cells]; [discriminate |]. simpl in H.
  destruct (String.eqb c col).
  - injection H as ->. now left.
  - right. now apply IH.
Qed.

(** With distinct column names and one cell per column, every cell of a
    row is the value of some column. *)
Lemma row_get_covers (cols : list string) (cells : list Cell) (v : Cell) :
  NoDup cols -> length cells = length cols -> In v cells ->
  exists col, In col cols /\ row_get cols cells col = Some v.
Proof.
  intro Hnd. revert cells.
  induction Hnd as [| c cols Hc Hnd IH]; intros cells Hlen Hin.
  - destruct cells; [destruct Hin | discriminate].
  - destruct cells as [| x cells]; [discriminate |].
    simpl in Hlen. injection Hlen as Hlen.
    destruct Hin as [-> | Hin].
    + exists c. split; [now left |]. simpl. now rewrite String.eqb_refl.
    + destruct (IH cells Hlen Hin) as [col [Hcol Hget]].
      exists col. split; [now right |]. simpl.
      destruct (String.eqb_spec c col) as [-> | _]; [contradiction |].
      exact Hget.
Qed.

Lemma null_count_positive (cells : list Cell) (v : Cell) :
  In v cells -> isnull v = true -> (0 < null_count cells)%nat.
Proof.
  intros Hin Hn. unfold null_count.
  assert (H : In v (filter isnull cells)) by (apply filter_In; now split).
  destruct (filter isnull cells); [destruct H | simpl; lia].
Qed.

Lemma list_sum_member (l : list nat) (n : nat) :
  In n l -> (n <= list_sum l)%nat.
Proof.
  induction l as [| m l IH]; [intros [] |].
  simpl. intros [-> | H]; [lia |]. specialize (IH H). lia.
Qed.

(** In a frame with a column and one cell per column, whatever sets
    [has_missing_data] is a row with a null cell. *)
Lemma missing_data_has_null (nn : list string) (t : Table) :
  rectangular t -> columns t <> [] ->
  has_missing_data (check_missing_data nn t) = true ->
  exists cells, In cells (rows t) /\ (0 < null_count cells)%nat.
Proof.
  intros Hrect Hcols H. apply has_missing_data_cases in H.
  unfold rectangular in Hrect. rewrite Forall_forall in Hrect.
  destruct H as [[cells [Hin He]] | [[col [cells [_ [_ [Hin Hn]]]]]
                                    | [cells [Hin Hm]]]];
    exists cells; (split; [assumption |]).
  - specialize (Hrect cells Hin).
    destruct cells as [| v cells].
    + destruct (columns t); [now elim Hcols | discriminate].
    + simpl in He. apply andb_true_iff in He.
      apply (null_count_positive _ v); [now left | tauto].
  - unfold null_in in Hn.
    destruct (row_get (columns t) cells col) as [v |] eqn:Hget;
      [| discriminate].
    apply (null_count_positive _ v); [| assumption].
    now apply row_get_In in Hget.
  - unfold many_missing in Hm. apply Nat.ltb_lt in Hm. lia.
Qed.

(** On a frame with at least one column and one cell per column:
    [has_missing_data] implies a positive [total_missing_values], and
    every entirely null row is also among the rows with more than half
    of their cells missing. *)
Theorem missing_data_is_counted (nn : list string) (t : Table) :
  rectangular t -> columns t <> [] ->
  (has_missing_data (check_missing_data nn t) = true ->
   (0 < total_missing_values (check_missing_data nn t))%nat) /\
  (forall i,
      In i (missing_rows (check_missing_data nn t)) ->
      exists many,
        rows_with_many_missing (check_missing_data nn t) = Some many /\
        In i many).
Proof.
  intros Hrect Hcols. split.
  - intro H.
    destruct (missing_data_has_null nn t Hrect Hcols H)
      as [cells [Hin Hpos]].
    assert (Hle : (null_count cells
                   <= total_missing_values (check_missing_data nn t))%nat).
    { unfold check_missing_data.
      destruct (fold_left _ _ _) as [flag2 by_column].
      cbn [total_missing_values]. apply list_sum_member.
      now apply in_map. }
    lia.
  - intros i Hi.
    assert (Hmany : In i (rows_where (many_missing t) t)).
    { unfold check_missing_data in Hi.
      destruct (fold_left _ _ _) as [flag2 by_column].
      cbn [missing_rows] in Hi.
      apply (rows_where_mono (forallb isnull)); [| assumption].
      intros cells Hin He. unfold many_missing, null_count.
      apply Nat.ltb_lt.
      rewrite (forallb_filter_id _ _ He).
      unfold rectangular in Hrect. rewrite Forall_forall in Hrect.
      rewrite (Hrect cells Hin).
      destruct (columns t); [now elim Hcols | simpl; lia]. }
    unfold check_missing_data.
    destruct (fold_left _ _ _) as [flag2 by_column].
    cbn [rows_with_many_missing].
    destruct (rows_where (many_missing t) t) as [| j many];
      [destruct Hmany |].
    eexists. split; [reflexivity | assumption].
Qed.

(** When every column is validated, the names are distinct and the
    frame has a column and one cell per column, a valid report excludes
    missing data: [_check_missing_data] finds none and counts no null. *)
Theorem valid_report_no_missing_data
        (float_ok : string -> bool) (cfg : ValidationConfig) (t : Table)
        (sheet : option string) (nn : list string) :
  is_valid (validate_spreadsheet float_ok cfg (Parsed t) sheet) = true ->
  validation_columns cfg t = columns t ->
  NoDup (columns t) -> rectangular t -> columns t <> [] ->
  has_missing_data (check_missing_data nn t) = false /\
  total_missing_values (check_missing_data nn t) = 0%nat.
Proof.
  intros Hv Hall Hnd Hrect Hcols.
  assert (Hzero : forall cells, In cells (rows t) -> null_count cells = 0%nat).
  { intros cells Hin.
    destruct (valid_report_rows float_ok cfg t sheet cells Hv Hin)
      as [_ Hclean].
    unfold null_count. rewrite filter_none; [reflexivity |].
    intros v Hvin.
    unfold rectangular in Hrect. rewrite Forall_forall in Hrect.
    destruct (row_get_covers (columns t) cells v Hnd (Hrect cells Hin) Hvin)
      as [col [Hcol Hget]].
    rewrite <- Hall in Hcol. specialize (Hclean col v Hcol Hget).
    unfold is_missing in Hclean. apply orb_false_iff in Hclean. tauto. }
  split.
  - apply not_true_is_false. intro H.
    destruct (missing_data_has_null nn t Hrect Hcols H)
      as [cells [Hin Hpos]].
    rewrite (Hzero cells Hin) in Hpos. lia.
  - unfold check_missing_data.
    destruct (fold_left _ _ _) as [flag2 by_column].
    cbn [total_missing_values].
    induction (rows t) as [| cells rs IH]; [reflexivity |].
    simpl. rewrite (Hzero cells) by now left.
    apply IH. intros c Hc. apply Hzero. now right.
Qed.

(** ** Numbers as the row loop sees them *)

(** The cells of a frame whose columns are all integer are numpy
    integers, which [isinstance(value, (int, float))] rejects: the rank
    branch is never taken for them. A row made of such cells is [valid]
    whatever the values of its rank columns, with no missing column and
    no finding, [float] accepting the text of every integer. *)
Theorem integer_frame_row_is_valid
        (float_ok : string -> bool) (cfg : ValidationConfig) (t : Table)
        (idx : nat) (cells : list Cell) :
  (forall n, float_ok (str_int n) = true) ->
  (forall col value,
      row_get (columns t) cells col = Some value ->
      exists n, value = CNpInt n) ->
  status (validate_row float_ok cfg t idx cells) = valid /\
  missing_columns (validate_row float_ok cfg t idx cells) = [] /\
  invalid_values (validate_row float_ok cfg t idx cells) = [].
Proof.
  intros Hfloat Hcells.
  assert (Hf : snd (frequency_check t cells) = true).
  { apply not_false_is_true. intro Hf.
    apply (frequency_check_stops float_ok) in Hf.
    destruct Hf as [fc [fv [_ [Hget Hkw]]]].
    destruct (Hcells fc fv Hget) as [n ->].
    pose proof (number_cell_not_keyword (CNpInt n)) as Hn.
    simpl in Hn, Hkw. congruence. }
  destruct (validate_row_checked float_ok cfg t idx cells Hf)
    as [Hms [Hivs [Hst _]]].
  assert (Hm : fst (check_columns float_ok (percentage_columns cfg t)
                      (rank_columns cfg t) (rank_threshold cfg)
                      (columns t) cells (validation_columns cfg t)) = []).
  { rewrite check_columns_missing.
    destruct (filter _ (validation_columns cfg t)) as [| col cols] eqn:Hfl;
      [reflexivity |].
    assert (Hin : In col (col :: cols)) by now left.
    rewrite <- Hfl in Hin. apply filter_In in Hin.
    destruct Hin as [_ Hin].
    destruct (row_get (columns t) cells col) as [value |] eqn:Hget;
      [| discriminate].
    destruct (Hcells col value Hget) as [n ->]. discriminate. }
  assert (Hi : snd (check_columns float_ok (percentage_columns cfg t)
                      (rank_columns cfg t) (rank_threshold cfg)
                      (columns t) cells (validation_columns cfg t)) = []).
  { destruct (snd (check_columns float_ok (percentage_columns cfg t)
                     (rank_columns cfg t) (rank_threshold cfg)
                     (columns t) cells (validation_columns cfg t)))
      as [| m ms] eqn:Hs; [reflexivity |].
    assert (Hin : In m (m :: ms)) by now left.
    rewrite <- Hs in Hin. apply check_columns_invalid in Hin.
    destruct Hin as [col [value [_ [Hget Hin]]]].
    destruct (Hcells col value Hget) as [n ->].
    unfold check_value in Hin. simpl in Hin. rewrite Hfloat in Hin.
    destruct (str_in col (percentage_columns cfg t)),
             (str_in col (rank_columns cfg t)),
             (is_outcome_number_name col); destruct Hin. }
  rewrite Hst, Hms, Hivs, Hm, Hi. repeat split.
Qed.


(** ** The further properties at sample inputs *)

Lemma skipped_cells_ignored_witness :
  validate_row accept_all default_config quarter_table 0 [CStr "a"; CNull]
  = validate_row accept_all default_config quarter_table 0
                 [CStr "a"; CNum 4].
Proof.
  apply (skipped_cells_ignored accept_all default_config quarter_table 0
           [CStr "a"; CNull] [CStr "a"; CNum 4]).
  intros col [Hin | Hf].
  - simpl in Hin. destruct Hin as [<- | []]. reflexivity.
  - discriminate.
Defined.

Lemma findings_need_rank_or_outcome_column_witness :
  invalid_values (validate_row accept_all default_config clean_table 0
                               [CNum 1; CStr "Alice"]) = [] /\
  status (validate_row accept_all default_config clean_table 0
                       [CNum 1; CStr "Alice"]) <> invalid.
Proof.
  apply (findings_need_rank_or_outcome_column accept_all default_config
           clean_table 0 [CNum 1; CStr "Alice"]).
  intros col Hin. simpl in Hin.
  destruct Hin as [<- | [<- | []]]; right; split; reflexivity.
Defined.

Lemma empty_skip_fragment_disables_validation_witness :
  validation_columns empty_fragment_config mixed_table = [].
Proof.
  apply (empty_skip_fragment_disables_validation accept_all
           empty_fragment_config mixed_table).
  left. reflexivity.
Defined.

Lemma empty_sheet_is_valid_witness :
  is_valid (validate_spreadsheet accept_all default_config
                                 (Parsed header_only_table) (Some "Sheet1"))
  = true.
Proof.
  apply (empty_sheet_is_valid accept_all delivered no_product default_config
           [] march_25 header_only_table "Sheet1").
  reflexivity.
Defined.

Lemma valid_report_has_no_missing_cell_witness :
  is_missing (CStr "Alice") = false.
Proof.
  apply (valid_report_has_no_missing_cell accept_all default_config
           clean_table None eq_refl [CNum 1; CStr "Alice"]
           (or_introl eq_refl)) with (col := "Name").
  - right. left. reflexivity.
  - reflexivity.
Defined.

Lemma failed_run_keeps_sheet_results_witness :
  length (calls_of (run_all_sheets accept_all delivered no_product
                                   "book.xlsx" default_config
                                   [("A", monthly None)] march_25
                                   (Sheets [("S1", Parsed clean_table);
                                            ("S2", Parsed mixed_table)])))
  = 2%nat.
Proof.
  apply (failed_run_keeps_sheet_results accept_all delivered no_product
           "book.xlsx" default_config [("A", monthly None)] march_25
           [("S1", Parsed clean_table); ("S2", Parsed mixed_table)]
           int_of_none).
  reflexivity.
Defined.

Lemma unreadable_sheet_does_not_abort_witness :
  notification_type
    (result_of (run_all_sheets accept_all delivered no_product "book.xlsx"
                               default_config [] march_25
                               (Sheets [("S1", Unreadable "bad sheet");
                                        ("S2", Parsed clean_table)])))
  = Some "missing_data_aggregated".
Proof.
  apply (unreadable_sheet_does_not_abort accept_all delivered no_product
           "book.xlsx" default_config [] march_25
           [("S1", Unreadable "bad sheet"); ("S2", Parsed clean_table)]
           false "S1" "bad sheet").
  - reflexivity.
  - left. reflexivity.
Defined.

Lemma errors_by_sheet_counts_witness :
  exists a,
    aggregated_result
      (result_of (run_all_sheets accept_all delivered no_product "book.xlsx"
                                 default_config [] march_25
                                 (Sheets [("S1", Parsed mixed_table);
                                          ("S2", Parsed clean_table)])))
    = Some a /\
    agg_total_errors a = list_sum (map snd (agg_errors_by_sheet a)).
Proof.
  destruct (errors_by_sheet_counts accept_all delivered no_product
              "book.xlsx" default_config [] march_25
              [("S1", Parsed mixed_table); ("S2", Parsed clean_table)]
              false eq_refl) as [a [H1 [_ [_ H2]]]].
  - simpl. apply NoDup_cons; [| apply NoDup_cons; [| apply NoDup_nil]].
    + intros [H | []]. discriminate.
    + intros [].
  - exists a. now split.
Defined.

Lemma periodic_trigger_order_independent_witness :
  should_send_periodic march_25
    [("A", monthly None); ("B", monthly (Some 28))] false
  = should_send_periodic march_25
      [("B", monthly (Some 28)); ("A", monthly None)] false.
Proof.
  apply (periodic_trigger_order_independent march_25).
  apply perm_swap.
Defined.

Lemma window_stays_open_witness :
  schedule_branch {| day := 30; month := 3 |} (monthly (Some 28))
  = Ok (Some "monthly").
Proof.
  apply (window_stays_open (monthly (Some 28)) 3 25 30 "monthly").
  - reflexivity.
  - discriminate.
Defined.

Lemma monthly_window_extremes_witness :
  schedule_branch march_25 (monthly (Some 40)) = Ok None.
Proof.
  apply (monthly_window_extremes march_25 40).
  - split; discriminate.
  - discriminate.
Defined.

Lemma config_get_nested_witness :
  config_get
    (YDict [("validation", YDict [("rules", YDict [("rank_threshold",
                                                    YInt 7)])])])
    ("validation" ++ "." ++ "rules.rank_threshold") YNull
  = config_get (YDict [("rules", YDict [("rank_threshold", YInt 7)])])
               "rules.rank_threshold" YNull.
Proof.
  apply (config_get_nested
           [("validation", YDict [("rules", YDict [("rank_threshold",
                                                    YInt 7)])])]
           "validation" "rules.rank_threshold" YNull).
  unfold lacks, chars. simpl.
  intros H. repeat (destruct H as [H | H]; [discriminate |]). exact H.
Defined.

Lemma stored_file_is_retrievable_witness :
  get_file_data
    (fst (store_file_data (Some []) "2024-01-01 10:00:00" "book.xlsx"
                          "bytes" "xlsx" (Some ["Sheet1"; "Data"]) None))
    (next_id []) = Some "bytes".
Proof.
  apply (stored_file_is_retrievable [] "2024-01-01 10:00:00" "book.xlsx"
           "bytes" "xlsx" ["Sheet1"; "Data"] None).
  apply Forall_cons; [| apply Forall_cons; [| apply Forall_nil]];
    (split; [discriminate |]); unfold lacks, chars; simpl; intros H;
    repeat (destruct H as [H | H]; [discriminate |]); exact H.
Defined.

Lemma missing_data_is_counted_witness :
  (0 < total_missing_values (check_missing_data ["Name"] sparse_table))%nat.
Proof.
  apply (missing_data_is_counted ["Name"] sparse_table).
  - unfold rectangular. simpl. repeat apply Forall_cons; try reflexivity.
    apply Forall_nil.
  - discriminate.
  - reflexivity.
Defined.

Lemma valid_report_no_missing_data_witness :
  has_missing_data (check_missing_data ["ID"] clean_table) = false /\
  total_missing_values (check_missing_data ["ID"] clean_table) = 0%nat.
Proof.
  apply (valid_report_no_missing_data accept_all default_config clean_table
           None ["ID"]).
  - reflexivity.
  - reflexivity.
  - simpl. apply NoDup_cons; [| apply NoDup_cons; [| apply NoDup_nil]].
    + intros [H | []]. discriminate.
    + intros [].
  - unfold rectangular. simpl. apply Forall_cons; [reflexivity |].
    apply Forall_nil.
  - discriminate.
Defined.

Lemma integer_frame_row_is_valid_witness :
  status (validate_row accept_all default_config integer_table 0
                       [CNpInt 7; CNpInt 12]) = valid /\
  missing_columns (validate_row accept_all default_config integer_table 0
                                [CNpInt 7; CNpInt 12]) = [] /\
  invalid_values (validate_row accept_all default_config integer_table 0
                               [CNpInt 7; CNpInt 12]) = [].
Proof.
  apply (integer_frame_row_is_valid accept_all default_config integer_table
           0 [CNpInt 7; CNpInt 12]).
  - reflexivity.
  - intros col value H. apply row_get_In in H.
    destruct H as [<- | [<- | []]]; eauto.
Defined.

